(** * alignment-research-dataset: entries, the WordPress feed scraper and the writer

    A shallow embedding of [align_data/blogs/wp_blog.py] and of the parts of
    [align_data/common/alignment_dataset.py] that the scraper and the test
    suite [tests/align_data/common/test_alignment_dataset.py] exercise.

    - [MD5]: the digest behind [DataEntry.add_id] (RFC 1321 over [Z] with the
      32-bit wrap-around written out).
    - [DataEntry]: a Python [dict] from field names to values, as a [gmap].
    - [WordpressBlog]: the dataclass, [items_list] and the generator
      [fetch_entries], whose run is a list of yielded entries and an outcome.
    - [Writer]: the two output files as strings, opened in append or truncate
      mode. *)

From Stdlib Require Import ZArith List Ascii String DecimalString DecimalZ Lia.
From stdpp Require Import gmap strings list.

Import ListNotations.

(** ** Python strings *)

Module PyStr.

(** [str.lower()] on the ASCII range: [A..Z] go to [a..z], every other byte
    stays. *)
Definition lower_ascii (c : ascii) : ascii :=
  let n := nat_of_ascii c in
  if (65 <=? n)%nat && (n <=? 90)%nat then ascii_of_nat (n + 32) else c.

Fixpoint lower (s : string) : string :=
  match s with
  | EmptyString => EmptyString
  | String c s' => String (lower_ascii c) (lower s')
  end.

(** [str(n)] for an [int]. *)
Definition str_of_int (n : Z) : string := NilZero.string_of_int (Z.to_int n).

Definition newline : ascii := ascii_of_nat 10.
Definition nl : string := String newline EmptyString.

(** [s.split(sep)] for a one-character separator: the pieces between the
    occurrences of [sep]; never the empty list. *)
Fixpoint split (sep : ascii) (s : string) : list string :=
  match s with
  | EmptyString => [EmptyString]
  | String c s' =>
      if Ascii.eqb c sep then EmptyString :: split sep s'
      else match split sep s' with
           | [] => [String c EmptyString]
           | p :: ps => String c p :: ps
           end
  end.

(** The first line of a string: what comes before its first line feed. *)
Fixpoint first_line (s : string) : string :=
  match s with
  | EmptyString => EmptyString
  | String c s' => if Ascii.eqb c newline then EmptyString else String c (first_line s')
  end.

Definition cr : ascii := ascii_of_nat 13.

(** Reading a file opened in text mode: a carriage return, alone or before a
    line feed, reads as one line feed. *)
Fixpoint universal_newlines (s : string) : string :=
  match s with
  | EmptyString => EmptyString
  | String c s' =>
      if Ascii.eqb c cr then
        match s' with
        | EmptyString => nl
        | String c' s'' =>
            if Ascii.eqb c' newline then String newline (universal_newlines s'')
            else String newline (universal_newlines s')
        end
      else String c (universal_newlines s')
  end.

(** The lines of a text, each with its line feed; the last one may lack it;
    the empty text has no line. *)
Fixpoint lines_keepends (s : string) : list string :=
  match s with
  | EmptyString => []
  | String c s' =>
      if Ascii.eqb c newline then nl :: lines_keepends s'
      else match lines_keepends s' with
           | [] => [String c EmptyString]
           | l :: ls => String c l :: ls
           end
  end.

(** The same lines without their line feed. *)
Fixpoint lines (s : string) : list string :=
  match s with
  | EmptyString => []
  | String c s' =>
      if Ascii.eqb c newline then EmptyString :: lines s'
      else match lines s' with
           | [] => [String c EmptyString]
           | l :: ls => String c l :: ls
           end
  end.

(** [f.readlines()] on the content of a file opened in text mode. *)
Definition readlines (content : string) : list string :=
  lines_keepends (universal_newlines content).

(** A string that holds no line break: no line feed, no carriage return. *)
Fixpoint one_line (s : string) : bool :=
  match s with
  | EmptyString => true
  | String c s' =>
      negb (Ascii.eqb c newline) && negb (Ascii.eqb c cr) && one_line s'
  end.

End PyStr.

(** ** MD5 ([hashlib.md5(...).hexdigest()]) *)

Module MD5.
Local Open Scope Z_scope.

Definition w32 (x : Z) : Z := Z.land x 0xffffffff.
Definition add32 (x y : Z) : Z := w32 (x + y).
Definition not32 (x : Z) : Z := Z.lxor (w32 x) 0xffffffff.
Definition rotl32 (x n : Z) : Z :=
  w32 (Z.lor (Z.shiftl x n) (Z.shiftr (w32 x) (32 - n))).

Definition K : list Z :=
  [ 0xd76aa478; 0xe8c7b756; 0x242070db; 0xc1bdceee; 0xf57c0faf; 0x4787c62a; 0xa8304613; 0xfd469501;
    0x698098d8; 0x8b44f7af; 0xffff5bb1; 0x895cd7be; 0x6b901122; 0xfd987193; 0xa679438e; 0x49b40821;
    0xf61e2562; 0xc040b340; 0x265e5a51; 0xe9b6c7aa; 0xd62f105d; 0x02441453; 0xd8a1e681; 0xe7d3fbc8;
    0x21e1cde6; 0xc33707d6; 0xf4d50d87; 0x455a14ed; 0xa9e3e905; 0xfcefa3f8; 0x676f02d9; 0x8d2a4c8a;
    0xfffa3942; 0x8771f681; 0x6d9d6122; 0xfde5380c; 0xa4beea44; 0x4bdecfa9; 0xf6bb4b60; 0xbebfbc70;
    0x289b7ec6; 0xeaa127fa; 0xd4ef3085; 0x04881d05; 0xd9d4d039; 0xe6db99e5; 0x1fa27cf8; 0xc4ac5665;
    0xf4292244; 0x432aff97; 0xab9423a7; 0xfc93a039; 0x655b59c3; 0x8f0ccc92; 0xffeff47d; 0x85845dd1;
    0x6fa87e4f; 0xfe2ce6e0; 0xa3014314; 0x4e0811a1; 0xf7537e82; 0xbd3af235; 0x2ad7d2bb; 0xeb86d391 ].

Definition shifts : list Z :=
  [ 7; 12; 17; 22; 7; 12; 17; 22; 7; 12; 17; 22; 7; 12; 17; 22;
    5;  9; 14; 20; 5;  9; 14; 20; 5;  9; 14; 20; 5;  9; 14; 20;
    4; 11; 16; 23; 4; 11; 16; 23; 4; 11; 16; 23; 4; 11; 16; 23;
    6; 10; 15; 21; 6; 10; 15; 21; 6; 10; 15; 21; 6; 10; 15; 21 ].

Definition bytes_of_string (s : string) : list Z :=
  map (fun c => Z.of_N (N_of_ascii c)) (list_ascii_of_string s).

(** Little-endian bytes of [x], [n] of them. *)
Fixpoint le_bytes (n : nat) (x : Z) : list Z :=
  match n with
  | O => []
  | S n' => Z.land x 0xff :: le_bytes n' (Z.shiftr x 8)
  end.

Fixpoint le_word (bs : list Z) : Z :=
  match bs with
  | [] => 0
  | b :: bs' => b + 256 * le_word bs'
  end.

(** The message, one [1] bit, zeros up to 56 modulo 64, the bit length on
    eight bytes. *)
Definition pad (msg : list Z) : list Z :=
  let len := Z.of_nat (List.length msg) in
  let zeros := Z.to_nat ((55 - len) mod 64) in
  msg ++ [0x80] ++ repeat 0 zeros ++ le_bytes 8 (8 * len).

Fixpoint chunks (fuel : nat) (n : nat) (bs : list Z) : list (list Z) :=
  match fuel, bs with
  | _, [] => []
  | O, _ => []
  | S fuel', _ => firstn n bs :: chunks fuel' n (skipn n bs)
  end.

Definition words (block : list Z) : list Z := map le_word (chunks 16 4 block).

Record state := { sa : Z; sb : Z; sc : Z; sd : Z }.

Definition init : state :=
  {| sa := 0x67452301; sb := 0xefcdab89; sc := 0x98badcfe; sd := 0x10325476 |}.

Definition step (M : list Z) (st : state) (i : Z) : state :=
  let '(Build_state a b c d) := st in
  let '(f, g) :=
    if i <? 16 then (Z.lor (Z.land b c) (Z.land (not32 b) d), i)
    else if i <? 32 then (Z.lor (Z.land d b) (Z.land (not32 d) c), (5 * i + 1) mod 16)
    else if i <? 48 then (Z.lxor (Z.lxor b c) d, (3 * i + 5) mod 16)
    else (Z.lxor c (Z.lor b (not32 d)), (7 * i) mod 16) in
  let f' := add32 (add32 (add32 f a) (nth (Z.to_nat i) K 0)) (nth (Z.to_nat g) M 0) in
  {| sa := d; sb := add32 b (rotl32 f' (nth (Z.to_nat i) shifts 0)); sc := b; sd := c |}.

Definition block_step (st : state) (block : list Z) : state :=
  let st' := fold_left (step (words block)) (map Z.of_nat (seq 0 64)) st in
  {| sa := add32 (sa st) (sa st'); sb := add32 (sb st) (sb st');
     sc := add32 (sc st) (sc st'); sd := add32 (sd st) (sd st') |}.

Definition digest (msg : list Z) : list Z :=
  let padded := pad msg in
  let st := fold_left block_step (chunks (List.length padded) 64 padded) init in
  le_bytes 4 (sa st) ++ le_bytes 4 (sb st) ++ le_bytes 4 (sc st) ++ le_bytes 4 (sd st).

Definition hex_digit (n : Z) : ascii :=
  ascii_of_N (Z.to_N (if n <? 10 then 48 + n else 87 + n)).

Definition hex_byte (b : Z) : string :=
  String (hex_digit (b / 16)) (String (hex_digit (b mod 16)) EmptyString).

Definition hexdigest (s : string) : string :=
  String.concat EmptyString (map hex_byte (digest (bytes_of_string s))).

End MD5.

(** ** Python exceptions and results *)

Inductive exn :=
  | AssertionError (msg : string)
  | KeyError (key : string)
  | IndexError
  | AttributeError.

Inductive result (A : Type) :=
  | Ok (a : A)
  | Raise (e : exn).
Arguments Ok {A} a.
Arguments Raise {A} e.

#[global] Instance exn_eq_dec : EqDecision exn.
Proof. solve_decision. Defined.

#[global] Instance result_eq_dec {A} `{EqDecision A} : EqDecision (result A).
Proof. solve_decision. Defined.

#[global] Instance result_bind : MBind result := fun A B k r =>
  match r with
  | Ok a => k a
  | Raise e => Raise e
  end.

(** [d[key]] on an optional field. *)
Definition getitem {A} (key : string) (o : option A) : result A :=
  match o with
  | Some a => Ok a
  | None => Raise (KeyError key)
  end.

(** ** DataEntry *)

(** The values the entries of this repository hold: [None], a [str], an
    [int]. *)
Inductive value :=
  | VNone
  | VStr (s : string)
  | VInt (n : Z).

#[global] Instance value_eq_dec : EqDecision value.
Proof. solve_decision. Defined.

Module DataEntry.

(** The recognised keys, each [None] by default
    (test_data_entry_default_fields). *)
Definition INIT_DICT : gmap string value :=
  <["date_published" := VNone]> (<["source" := VNone]> (<["title" := VNone]>
  (<["url" := VNone]> (<["id" := VNone]> (<["text" := VNone]> ∅))))).

(** [DataEntry(d)]: the given fields, and the default for every recognised
    key that [d] lacks. *)
Definition new (d : gmap string value) : gmap string value := d ∪ INIT_DICT.

(** Modelled from the spec: the content hash of §4.1, an MD5 hex digest
    ([align_data/common/alignment_dataset.py] is not among the sources).
    The digest is taken over the text as it stands: the test suite has
    [_verify_id] accept the text 'once upon a time' under the id
    ea36fcd25d96821e1455adec6e5d9a3a and reject 'Once upon a time' under the
    same id (test_data_entry_verify_id_passes,
    test_data_entry_verify_id_fails), which no digest of the lowercased text
    can do. *)
Definition content_hash (text : string) : string := MD5.hexdigest text.

(** Modelled from the spec: the identity as §4.1 words it,
    [hash(lowercase(text))]; kept for comparison with [content_hash]. *)
Definition content_hash_lowercase (text : string) : string :=
  MD5.hexdigest (PyStr.lower text).

(** Modelled from the spec: [DataEntry.add_id], absent from the sources.
    Text that is missing, [None] or empty fails the assertion
    'Entry is missing text'; otherwise the entry gets [id] set to the
    content hash of its text. *)
Definition add_id (e : gmap string value) : result (gmap string value) :=
  match e !! "text" with
  | None | Some VNone | Some (VStr "") =>
      Raise (AssertionError "Entry is missing text")
  | Some (VStr t) => Ok (<["id" := VStr (content_hash t)]> e)
  | Some (VInt _) => Raise AttributeError
  end.

(** Modelled from the spec: [DataEntry._verify_id], absent from the sources.
    The id must be present, then the text, then the id must equal the
    recomputed hash; the three messages are those the tests match. *)
Definition _verify_id (e : gmap string value) : result unit :=
  match e !! "id" with
  | None | Some VNone => Raise (AssertionError "Entry is missing id")
  | Some i =>
      match e !! "text" with
      | None | Some VNone => Raise (AssertionError "Entry is missing text")
      | Some (VStr t) =>
          if decide (i = VStr (content_hash t)) then Ok tt
          else Raise (AssertionError "Entry id does not match text")
      | Some (VInt _) => Raise AttributeError
      end
  end.

(** [_verify_id] with the identity the spec words, for comparison. *)
Definition _verify_id_lowercase (e : gmap string value) : result unit :=
  match e !! "id" with
  | None | Some VNone => Raise (AssertionError "Entry is missing id")
  | Some i =>
      match e !! "text" with
      | None | Some VNone => Raise (AssertionError "Entry is missing text")
      | Some (VStr t) =>
          if decide (i = VStr (content_hash_lowercase t)) then Ok tt
          else Raise (AssertionError "Entry id does not match text")
      | Some (VInt _) => Raise AttributeError
      end
  end.

End DataEntry.

(** ** The parsed feed ([feedparser.parse]) *)

(** One item of a feed page: [entry["title"]] and
    [entry["content"][i]["value"]], each of which may be absent. *)
Record FeedItem := {
  item_title : option string;
  item_content : option (list (option string));
}.

(** [d["feed"]], with its optional [title]. *)
Record Feed := { feed_title : option string }.

Record FeedParserDict := {
  d_feed : option Feed;
  d_entries : option (list FeedItem);
}.

(** A run of a generator: the values it yields, then a normal end or the
    exception that ends it. *)
Definition run (A : Type) : Type := list A * result unit.

(** ** WordpressBlog *)

(** The dataclass fields. *)
Record WordpressBlog := {
  url : string;
  strip : list string;
  max_pages : Z;
}.

Definition default_max_pages : Z := 2000.

(** [WordpressBlog(url=..., strip=..., max_pages=...)]: [strip] defaults to
    the empty list and [max_pages] to 2000. *)
Definition WordpressBlog_init (url0 : string) (strip0 : option (list string))
    (max_pages0 : option Z) : WordpressBlog :=
  {| url := url0; strip := default [] strip0;
     max_pages := default default_max_pages max_pages0 |}.

Definition done_key : string := "paged_url".

(** [setup]: [self.feed_url = self.url + "/feed"]. *)
Definition feed_url (w : WordpressBlog) : string := url w +:+ "/feed".

Definition get_item_key (item : string) : string := item.

(** [items_list]: one URL per page, [page] over [range(0, max_pages)]. *)
Definition items_list (w : WordpressBlog) : list string :=
  (fun page => feed_url w +:+ "?paged=" +:+ PyStr.str_of_int (page + 1)) <$>
  seqZ 0 (max_pages w).

(** Modelled from the spec: the done set of §4.2, the values of [done_key]
    in the entries of the earlier output ([AlignmentDataset] is not among
    the sources). *)
Definition done_items (prior : list (gmap string value)) : list value :=
  omap (fun e : gmap string value => e !! done_key) prior.

(** Modelled from the spec: [AlignmentDataset.unprocessed_items] (§4.2), the
    items of [items_list] whose key is not in the done set. *)
Definition unprocessed_items (w : WordpressBlog)
    (prior : list (gmap string value)) : list string :=
  filter (fun item => VStr (get_item_key item) ∉ done_items prior) (items_list w).

(** [l[0]]. *)
Definition index0 {A} (l : list A) : result A :=
  match l with
  | [] => Raise IndexError
  | x :: _ => Ok x
  end.

Section Scraper.

(** The world outside the repository: [feedparser.parse],
    [utils.HtmlCleaner(strip).clean] and [utils.url_to_filename]. *)
Variable parse : string -> FeedParserDict.
Variable clean : list string -> string -> string.
Variable url_to_filename : string -> string.

(** [setup]: [self.name = utils.url_to_filename(self.url)]. *)
Definition name (w : WordpressBlog) : string := url_to_filename (url w).

(** The text of an item: [entry["title"] + "\n\n" + content_text]. *)
Definition item_text (w : WordpressBlog) (title content : string) : string :=
  title +:+ PyStr.nl +:+ PyStr.nl +:+ clean (strip w) content.

(** The dict literal of the inner loop, under [DataEntry(...)]. *)
Definition entry_dict (w : WordpressBlog) (paged_url text first_line : string)
    : gmap string value :=
  DataEntry.new (
    <["text" := VStr text]> (
    <["url" := VStr (url w)]> (
    <["title" := VStr first_line]> (
    <["source" := VStr (name w)]> (
    <["date_published" := VStr "n/a"]> (
    <["paged_url" := VStr paged_url]> ∅)))))).

(** The body of the inner loop up to the [yield]. *)
Definition make_entry (w : WordpressBlog) (paged_url : string)
    (entry : FeedItem) : result (gmap string value) :=
  content ← getitem "content" (item_content entry);
  first ← index0 content;
  html ← getitem "value" first;
  title ← getitem "title" (item_title entry);
  let text := item_text w title html in
  first_line ← index0 (PyStr.split PyStr.newline text);
  let new_entry := entry_dict w paged_url text first_line in
  DataEntry.add_id new_entry.

(** [for entry in d["entries"]: ... yield new_entry]. *)
Fixpoint page_entries (w : WordpressBlog) (paged_url : string)
    (items : list FeedItem) : run (gmap string value) :=
  match items with
  | [] => ([], Ok tt)
  | entry :: rest =>
      match make_entry w paged_url entry with
      | Raise x => ([], Raise x)
      | Ok e =>
          let '(es, o) := page_entries w paged_url rest in (e :: es, o)
      end
  end.

(** [d["feed"]["title"]] when both keys are there. *)
Definition title_field (d : FeedParserDict) : option string :=
  match d_feed d with
  | Some f => feed_title f
  | None => None
  end.

(** The condition of the [break]. *)
Definition end_of_feed (d : FeedParserDict) (last_title : string) : bool :=
  match d_feed d with
  | None => true
  | Some f =>
      match feed_title f with
      | None => true
      | Some t => String.eqb t last_title
      end
  end.

(** One run then another: the second starts only if the first ends
    normally. *)
Definition then_run {A} (r : run A) (k : run A) : run A :=
  match r with
  | (es, Ok _) => (es ++ k.1, k.2)
  | (es, Raise x) => (es, Raise x)
  end.

(** What a page that passes the [break] contributes. *)
Definition page_run (w : WordpressBlog) (paged_url : string)
    (d : FeedParserDict) : run (gmap string value) :=
  match d_entries d with
  | None => ([], Raise (KeyError "entries"))
  | Some items => page_entries w paged_url items
  end.

(** [d["feed"]["title"]] once the [break] has been passed. *)
Definition page_title (d : FeedParserDict) : string :=
  match d_feed d with
  | Some f => default EmptyString (feed_title f)
  | None => EmptyString
  end.

(** The outer loop over the pages still to fetch, with its [last_title]. *)
Fixpoint fetch_loop (w : WordpressBlog) (last_title : string)
    (urls : list string) : run (gmap string value) :=
  match urls with
  | [] => ([], Ok tt)
  | paged_url :: rest =>
      let d := parse paged_url in
      if end_of_feed d last_title then ([], Ok tt)
      else
        let last_title := page_title d in
        then_run (page_run w paged_url d) (fetch_loop w last_title rest)
  end.

(** The pages of [urls] all pass the [break], the first one against
    [last_title] and each next one against the title before it. *)
Fixpoint all_pass (last_title : string) (urls : list string) : bool :=
  match urls with
  | [] => true
  | u :: rest =>
      negb (end_of_feed (parse u) last_title) && all_pass (page_title (parse u)) rest
  end.

(** [last_title] once the pages of [urls] have passed. *)
Fixpoint last_title_after (last_title : string) (urls : list string) : string :=
  match urls with
  | [] => last_title
  | u :: rest => last_title_after (page_title (parse u)) rest
  end.

(** The contributions of the pages of [urls], one after the other. *)
Fixpoint pages_run (w : WordpressBlog) (urls : list string) : run (gmap string value) :=
  match urls with
  | [] => ([], Ok tt)
  | u :: rest => then_run (page_run w u (parse u)) (pages_run w rest)
  end.

(** [fetch_entries]; [prior] is the earlier output that
    [unprocessed_items] reads. *)
Definition fetch_entries (w : WordpressBlog)
    (prior : list (gmap string value)) : run (gmap string value) :=
  fetch_loop w EmptyString (unprocessed_items w prior).

End Scraper.

(** ** The writer *)

Module Writer.

(** The output file pair, each file by its content; a file that does not
    exist yet reads as the empty content. *)
Record files := { jsonl : string; txt : string }.

Definition no_files : files := {| jsonl := EmptyString; txt := EmptyString |}.

(** [str(v)]. *)
Definition str (v : value) : string :=
  match v with
  | VNone => "None"
  | VStr s => s
  | VInt n => PyStr.str_of_int n
  end.

Definition field (e : gmap string value) (key : string) : string :=
  str (default VNone (e !! key)).

(** Modelled from the spec: the flattened text of §2 and §4.4: inside a
    field every line break, line feed or carriage return, is written as a
    space, so that a field takes one line. *)
Definition flatten_ascii (c : ascii) : ascii :=
  if Ascii.eqb c PyStr.newline || Ascii.eqb c PyStr.cr then ascii_of_nat 32 else c.

Fixpoint flatten (s : string) : string :=
  match s with
  | EmptyString => EmptyString
  | String c s' => String (flatten_ascii c) (flatten s')
  end.

(** Modelled from the spec: the three-line text block of §3, §4.4 and §6:
    the title, an empty line, the body, each field flattened
    ([AlignmentDataset.writer] is not among the sources). *)
Definition text_block (e : gmap string value) : string :=
  flatten (field e "title") +:+ PyStr.nl +:+ PyStr.nl
  +:+ flatten (field e "text") +:+ PyStr.nl.

(** Modelled from the spec: opening the pair (§4.4), in truncate mode when
    [overwrite] is set and in append mode otherwise. *)
Definition open_files (overwrite : bool) (fs : files) : files :=
  if overwrite then no_files else fs.

Section Codec.

(** The JSON codec of the [jsonlines] library. *)
Variable dumps : gmap string value -> string.
Variable loads : string -> option (gmap string value).

(** Modelled from the spec: the callable of §4.4, one jsonl record and one
    text block per entry, both appended. *)
Definition write (fs : files) (e : gmap string value) : files :=
  {| jsonl := jsonl fs +:+ dumps e +:+ PyStr.nl;
     txt := txt fs +:+ text_block e |}.

(** [with dataset.writer(overwrite=...) as writer: for entry in es: writer(entry)]. *)
Definition session (overwrite : bool) (es : list (gmap string value))
    (fs : files) : files :=
  fold_left write es (open_files overwrite fs).

(** [list(jsonlines.open(path))]: every line of the file decoded. *)
Definition read_jsonl (content : string) : option (list (gmap string value)) :=
  mapM loads (PyStr.lines (PyStr.universal_newlines content)).

(** The jsonl records and the text blocks of a list of entries, in order. *)
Definition records (es : list (gmap string value)) : string :=
  String.concat EmptyString (map (fun e => dumps e +:+ PyStr.nl) es).

Definition blocks (es : list (gmap string value)) : string :=
  String.concat EmptyString (map text_block es).

(** What the writer needs of the codec on an entry: decoding gives the
    entry back, and the record holds no raw line break. *)
Definition codec_ok (e : gmap string value) : Prop :=
  loads (dumps e) = Some e ∧ PyStr.one_line (dumps e) = true.

End Codec.

End Writer.

(** ** Observations and sample data *)

(** The id an [add_id] call leaves in the entry, if it returns. *)
Definition id_of (r : result (gmap string value)) : option value :=
  match r with
  | Ok e => e !! "id"
  | Raise _ => None
  end.

Definition entry_of_text (text : string) : gmap string value :=
  DataEntry.new (<["text" := VStr text]> ∅).

(** A feed of three pages whose third repeats the title of the second, and
    nothing after them. *)
Definition sample_item (title body : string) : FeedItem :=
  {| item_title := Some title; item_content := Some [Some body] |}.

Definition sample_page (title : string) (items : list FeedItem) : FeedParserDict :=
  {| d_feed := Some {| feed_title := Some title |}; d_entries := Some items |}.

Definition sample_parse (paged_url : string) : FeedParserDict :=
  if String.eqb paged_url "http://b.org/feed?paged=1" then
    sample_page "Blog" [sample_item "First" "<p>one</p>"; sample_item "Second" "<p>two</p>"]
  else if String.eqb paged_url "http://b.org/feed?paged=2" then
    sample_page "Blog - page 2" []
  else if String.eqb paged_url "http://b.org/feed?paged=3" then
    sample_page "Blog - page 2" [sample_item "Third" "<p>three</p>"]
  else {| d_feed := None; d_entries := Some [] |}.

Definition sample_clean (strip0 : list string) (html : string) : string := html.

Definition sample_url_to_filename (u : string) : string := "b_org".

Definition sample_blog : WordpressBlog :=
  WordpressBlog_init "http://b.org" None (Some 4%Z).

(** A feed whose first page has an empty title. *)
Definition untitled_parse (paged_url : string) : FeedParserDict :=
  sample_page EmptyString [sample_item "First" "<p>one</p>"].

(** The first entry of the sample feed. *)
Definition sample_entry : gmap string value :=
  <["id" := VStr (DataEntry.content_hash
                    ("First" +:+ PyStr.nl +:+ PyStr.nl +:+ "<p>one</p>"))]> (
  DataEntry.new (
    <["text" := VStr ("First" +:+ PyStr.nl +:+ PyStr.nl +:+ "<p>one</p>")]> (
    <["url" := VStr "http://b.org"]> (
    <["title" := VStr "First"]> (
    <["source" := VStr "b_org"]> (
    <["date_published" := VStr "n/a"]> (
    <["paged_url" := VStr "http://b.org/feed?paged=1"]> ∅))))))).

(** A codec for entries that hold a text only: the record is the text. *)
Definition sample_dumps (e : gmap string value) : string := Writer.field e "text".

(** Entries after the fixture [data_entries] of the test suite. *)
Definition fixture_entry (title text : string) : gmap string value :=
  <["id" := VStr (DataEntry.content_hash text)]>
    (DataEntry.new (<["text" := VStr text]> (<["title" := VStr title]> ∅))).

(** The fixture [data_entries] of the test suite, before its [add_id]
    calls: five entries, [i] over [range(5)]. *)
Definition data_entry (i : Z) : gmap string value :=
  DataEntry.new (
    <["text" := VStr ("line " +:+ PyStr.str_of_int i)]> (
    <["date_published" := VStr ("day " +:+ PyStr.str_of_int i)]> (
    <["source" := VStr ("source " +:+ PyStr.str_of_int i)]> (
    <["title" := VStr (PyStr.str_of_int i)]> (
    <["url" := VStr ("http://bla.bla.bla?page=" +:+ PyStr.str_of_int i)]> ∅))))).

Definition data_entries : list (result (gmap string value)) :=
  (fun i => DataEntry.add_id (data_entry i)) <$> seqZ 0 5.

Definition sample_loads (record : string) : option (gmap string value) :=
  Some (fixture_entry "entry" record).

Definition fixture_entries : list (gmap string value) :=
  [fixture_entry "entry" "line 0"; fixture_entry "entry" "line 1"].

(** ** What a run yields, item by item *)

(** The title and the first content value of an item that has both: what
    the inner loop reads of it. *)
Definition item_parts (item : FeedItem) : option (string * string) :=
  match item_content item, item_title item with
  | Some (Some html :: _), Some title => Some (title, html)
  | _, _ => None
  end.

(** The entry the inner loop yields for an item with these parts: the dict
    literal with its [id] set. *)
Definition built_entry (clean : list string -> string -> string)
    (url_to_filename : string -> string) (w : WordpressBlog)
    (paged_url : string) (parts : string * string) : gmap string value :=
  let text := item_text clean w parts.1 parts.2 in
  <["id" := VStr (DataEntry.content_hash text)]>
    (entry_dict url_to_filename w paged_url text (PyStr.first_line text)).

(** The entries of a page whose items all have their parts. *)
Definition page_built (clean : list string -> string -> string)
    (url_to_filename : string -> string) (w : WordpressBlog)
    (paged_url : string) (d : FeedParserDict) : list (gmap string value) :=
  omap (fun item => built_entry clean url_to_filename w paged_url <$> item_parts item)
       (default [] (d_entries d)).

(** A string that holds no line feed. *)
Fixpoint no_line_feed (s : string) : bool :=
  match s with
  | EmptyString => true
  | String c s' => negb (Ascii.eqb c PyStr.newline) && no_line_feed s'
  end.

(** Each title differs from the one just before it. *)
Fixpoint adjacent_distinct (last_title : string) (titles : list string) : Prop :=
  match titles with
  | [] => True
  | t :: rest => t ≠ last_title ∧ adjacent_distinct t rest
  end.

(** A feed whose second page holds, after a good item, an item without
    title. *)
Definition broken_parse (paged_url : string) : FeedParserDict :=
  if String.eqb paged_url "http://b.org/feed?paged=1" then
    sample_page "Blog" [sample_item "First" "<p>one</p>"]
  else if String.eqb paged_url "http://b.org/feed?paged=2" then
    sample_page "Blog - page 2"
      [sample_item "Second" "<p>two</p>";
       {| item_title := None; item_content := Some [Some "<p>three</p>"] |};
       sample_item "Fourth" "<p>four</p>"]
  else sample_page "Blog - page 3" [sample_item "Fifth" "<p>five</p>"].

(** A feed whose first two pages hold the same item. *)
Definition twin_parse (paged_url : string) : FeedParserDict :=
  if String.eqb paged_url "http://b.org/feed?paged=1" then
    sample_page "Blog" [sample_item "Same" "<p>same</p>"]
  else sample_page "Blog - page 2" [sample_item "Same" "<p>same</p>"].

Definition twin_entry (paged_url : string) : gmap string value :=
  built_entry sample_clean sample_url_to_filename sample_blog paged_url
    ("Same", "<p>same</p>").

(** A feed whose third page has the title of the first. *)
Definition aba_parse (paged_url : string) : FeedParserDict :=
  if String.eqb paged_url "http://b.org/feed?paged=2" then
    sample_page "B" [sample_item "Second" "<p>two</p>"]
  else sample_page "A" [sample_item "Other" "<p>other</p>"].

(** * Properties *)

(** A closed, decidable statement, settled by evaluating its decision
    procedure. *)
Ltac by_deciding := apply (bool_decide_unpack _); vm_compute; exact I.

(** ** Entry identity *)

Lemma md5_once_upon_a_time :
  MD5.hexdigest "once upon a time" = "ea36fcd25d96821e1455adec6e5d9a3a".
Proof. vm_compute. reflexivity. Qed.

Lemma md5_Once_upon_a_time :
  MD5.hexdigest "Once upon a time" = "cb3901f2f743528962715d9d85a5e112".
Proof. vm_compute. reflexivity. Qed.

Lemma add_id_text (e : gmap string value) (t : string) :
  e !! "text" = Some (VStr t) → t ≠ EmptyString →
  DataEntry.add_id e = Ok (<["id" := VStr (DataEntry.content_hash t)]> e).
Proof.
  intros Ht Hne. unfold DataEntry.add_id. rewrite Ht.
  destruct t; [congruence | reflexivity].
Qed.

Lemma verify_id_text (e : gmap string value) (i t : string) :
  e !! "id" = Some (VStr i) → e !! "text" = Some (VStr t) →
  DataEntry._verify_id e =
    if decide (i = DataEntry.content_hash t) then Ok tt
    else Raise (AssertionError "Entry id does not match text").
Proof.
  intros Hi Ht. unfold DataEntry._verify_id. rewrite Hi, Ht.
  repeat case_decide; congruence.
Qed.

(** test_data_entry_default_fields and test_data_entry_id_from_text, on the
    model. *)
Lemma new_default_fields : DataEntry.new ∅ = DataEntry.INIT_DICT.
Proof. reflexivity. Qed.

Lemma add_id_from_text :
  DataEntry.add_id (DataEntry.new
    (<["key1" := VInt 12]> (<["key2" := VInt 312]> (<["text" := VStr "once upon a time"]> ∅))))
  = Ok (<["date_published" := VNone]> (<["id" := VStr "ea36fcd25d96821e1455adec6e5d9a3a"]>
       (<["source" := VNone]> (<["title" := VNone]> (<["url" := VNone]>
       (<["key1" := VInt 12]> (<["key2" := VInt 312]>
       (<["text" := VStr "once upon a time"]> ∅)))))))).
Proof. by_deciding. Qed.

(** Every entry of the fixture [data_entries] gets its id and passes
    [_verify_id]. *)
Lemma data_entries_verified :
  Forall (fun r => ∃ e, r = Ok e ∧ DataEntry._verify_id e = Ok tt) data_entries.
Proof.
  repeat constructor; eexists; (split; [reflexivity |]); vm_compute; reflexivity.
Qed.

(** The two cases of test_data_entry_verify_id_passes and of the last line
    of test_data_entry_verify_id_fails, on the model. *)
Lemma verify_id_tests :
  DataEntry._verify_id (DataEntry.new (<["text" := VStr "once upon a time"]>
    (<["id" := VStr "ea36fcd25d96821e1455adec6e5d9a3a"]> ∅))) = Ok tt
  ∧ DataEntry._verify_id (DataEntry.new (<["id" := VStr "ea36fcd25d96821e1455adec6e5d9a3a"]>
    (<["text" := VStr "Once upon a time"]> ∅)))
    = Raise (AssertionError "Entry id does not match text").
Proof. split; vm_compute; reflexivity. Qed.

(** With the identity over the lowercased text, the entry that
    test_data_entry_verify_id_fails expects to be rejected is accepted. *)
Lemma verify_id_lowercase_accepts :
  DataEntry._verify_id_lowercase (DataEntry.new (<["id" := VStr "ea36fcd25d96821e1455adec6e5d9a3a"]>
    (<["text" := VStr "Once upon a time"]> ∅))) = Ok tt.
Proof. vm_compute. reflexivity. Qed.

(** C1 as stated fails. The texts 'Once upon a time' and 'once upon a time'
    differ only in letter case, yet [add_id] gives them different ids, and
    [_verify_id] rejects, for the first text, the id computed from its
    lowercased form (the last case of test_data_entry_verify_id_fails). *)
Lemma add_id_ignores_case_counterexample :
  PyStr.lower "Once upon a time" = PyStr.lower "once upon a time"
  ∧ id_of (DataEntry.add_id (entry_of_text "Once upon a time"))
    = Some (VStr "cb3901f2f743528962715d9d85a5e112")
  ∧ id_of (DataEntry.add_id (entry_of_text "once upon a time"))
    = Some (VStr "ea36fcd25d96821e1455adec6e5d9a3a")
  ∧ id_of (DataEntry.add_id (entry_of_text "Once upon a time"))
    ≠ id_of (DataEntry.add_id (entry_of_text "once upon a time"))
  ∧ DataEntry._verify_id
      (<["id" := VStr (MD5.hexdigest (PyStr.lower "Once upon a time"))]>
         (entry_of_text "Once upon a time"))
    = Raise (AssertionError "Entry id does not match text").
Proof.
  split; [vm_compute; reflexivity |].
  split; [vm_compute; reflexivity |].
  split; [vm_compute; reflexivity |].
  split; [vm_compute; discriminate | vm_compute; reflexivity].
Qed.

(** C1, amended. Entry identity is a function of the text as it stands:
    [add_id] sets [id] to the MD5 hex digest of the text, so two entries with
    the same text get the same id; [_verify_id] accepts an id exactly when it
    is the digest of the text itself; 'once upon a time' has the id
    ea36fcd25d96821e1455adec6e5d9a3a, and [_verify_id] rejects that id for the
    text 'Once upon a time'. *)
Theorem add_id_identity_of_text (e1 e2 : gmap string value) (t : string) :
  e1 !! "text" = Some (VStr t) → e2 !! "text" = Some (VStr t) → t ≠ EmptyString →
  id_of (DataEntry.add_id e1) = Some (VStr (MD5.hexdigest t))
  ∧ id_of (DataEntry.add_id e1) = id_of (DataEntry.add_id e2)
  ∧ (∀ i, DataEntry._verify_id (<["id" := VStr i]> e1) = Ok tt ↔ i = MD5.hexdigest t)
  ∧ id_of (DataEntry.add_id (entry_of_text "once upon a time"))
    = Some (VStr "ea36fcd25d96821e1455adec6e5d9a3a")
  ∧ DataEntry._verify_id
      (<["id" := VStr "ea36fcd25d96821e1455adec6e5d9a3a"]>
         (entry_of_text "Once upon a time"))
    = Raise (AssertionError "Entry id does not match text").
Proof.
  intros H1 H2 Hne.
  rewrite (add_id_text e1 t H1 Hne), (add_id_text e2 t H2 Hne). simpl.
  rewrite !lookup_insert_eq.
  split; [reflexivity |]. split; [reflexivity |]. split.
  - intros i.
    rewrite (verify_id_text _ i t); [| apply lookup_insert_eq | by rewrite lookup_insert_ne].
    unfold DataEntry.content_hash. case_decide; split; congruence.
  - split; vm_compute; reflexivity.
Qed.

Lemma add_id_identity_of_text_witness :
  id_of (DataEntry.add_id (entry_of_text "line 0")) = Some (VStr (MD5.hexdigest "line 0"))
  ∧ id_of (DataEntry.add_id (entry_of_text "line 0"))
    = id_of (DataEntry.add_id (<["title" := VStr "0"]> (entry_of_text "line 0"))).
Proof.
  destruct (add_id_identity_of_text (entry_of_text "line 0")
              (<["title" := VStr "0"]> (entry_of_text "line 0")) "line 0")
    as (H1 & H2 & _ & _ & _).
  - vm_compute. reflexivity.
  - vm_compute. reflexivity.
  - discriminate.
  - split; [exact H1 | exact H2].
Defined.

(** C5. [add_id] on an entry whose text is missing, [None] or empty raises
    'Entry is missing text'; [_verify_id] on an entry whose id is missing or
    [None] raises 'Entry is missing id'; [_verify_id] on an entry whose id
    differs from the recomputed hash of its text raises
    'Entry id does not match text'. *)
Theorem validation_errors :
  (∀ e : gmap string value,
     e !! "text" = None ∨ e !! "text" = Some VNone ∨ e !! "text" = Some (VStr EmptyString) →
     DataEntry.add_id e = Raise (AssertionError "Entry is missing text"))
  ∧ (∀ e : gmap string value,
     e !! "id" = None ∨ e !! "id" = Some VNone →
     DataEntry._verify_id e = Raise (AssertionError "Entry is missing id"))
  ∧ (∀ (e : gmap string value) (i : value) (t : string),
     e !! "id" = Some i → i ≠ VNone → e !! "text" = Some (VStr t) →
     i ≠ VStr (DataEntry.content_hash t) →
     DataEntry._verify_id e = Raise (AssertionError "Entry id does not match text")).
Proof.
  split; [| split].
  - intros e [H | [H | H]]; unfold DataEntry.add_id; rewrite H; reflexivity.
  - intros e [H | H]; unfold DataEntry._verify_id; rewrite H; reflexivity.
  - intros e i t Hi Hn Ht Hne. unfold DataEntry._verify_id. rewrite Hi, Ht.
    destruct i; [congruence | |]; case_decide; congruence.
Qed.

Lemma validation_errors_witness :
  DataEntry.add_id (DataEntry.new (<["key1" := VInt 12]> (<["key2" := VInt 312]> ∅)))
    = Raise (AssertionError "Entry is missing text")
  ∧ DataEntry.add_id (entry_of_text EmptyString)
    = Raise (AssertionError "Entry is missing text")
  ∧ DataEntry._verify_id (entry_of_text "bla bla bla")
    = Raise (AssertionError "Entry is missing id")
  ∧ DataEntry._verify_id (<["id" := VStr "123"]> (entry_of_text "winter wonderland"))
    = Raise (AssertionError "Entry id does not match text").
Proof.
  destruct validation_errors as (H1 & H2 & H3).
  split; [apply H1; right; left; vm_compute; reflexivity |].
  split; [apply H1; right; right; vm_compute; reflexivity |].
  split; [apply H2; right; vm_compute; reflexivity |].
  apply (H3 _ (VStr "123") "winter wonderland").
  - vm_compute. reflexivity.
  - discriminate.
  - vm_compute. reflexivity.
  - vm_compute. discriminate.
Defined.

(** C6. On an entry with non-empty text, [add_id] returns and [_verify_id]
    on the entry it leaves raises nothing. *)
Theorem add_id_then_verify_id (e : gmap string value) (t : string) :
  e !! "text" = Some (VStr t) → t ≠ EmptyString →
  ∃ e', DataEntry.add_id e = Ok e' ∧ DataEntry._verify_id e' = Ok tt.
Proof.
  intros Ht Hne. eexists. split; [exact (add_id_text e t Ht Hne) |].
  rewrite (verify_id_text _ (DataEntry.content_hash t) t);
    [| apply lookup_insert_eq | by rewrite lookup_insert_ne].
  by case_decide.
Qed.

Lemma add_id_then_verify_id_witness :
  ∃ e', DataEntry.add_id (entry_of_text "once upon a time") = Ok e'
        ∧ DataEntry._verify_id e' = Ok tt.
Proof.
  apply (add_id_then_verify_id (entry_of_text "once upon a time") "once upon a time").
  - vm_compute. reflexivity.
  - discriminate.
Defined.

(** ** The feed scraper *)

Lemma end_of_feed_spec (d : FeedParserDict) (last_title : string) :
  end_of_feed d last_title = true ↔
  d_feed d = None
  ∨ (∃ f, d_feed d = Some f ∧ feed_title f = None)
  ∨ (∃ f, d_feed d = Some f ∧ feed_title f = Some last_title).
Proof.
  unfold end_of_feed. destruct (d_feed d) as [f |]; [| naive_solver].
  destruct (feed_title f) as [t |] eqn:Ht; [| naive_solver].
  rewrite String.eqb_eq. split.
  - intros ->. right. right. eauto.
  - intros [? | [(f' & ? & ?) | (f' & ? & ?)]]; simplify_eq; congruence.
Qed.

Lemma then_run_done {A} (r : run A) : then_run r ([], Ok tt) = r.
Proof. destruct r as [es [[] | x]]; simpl; [by rewrite app_nil_r | done]. Qed.

Lemma then_run_nil {A} (k : run A) : then_run ([], Ok tt) k = k.
Proof. by destruct k. Qed.

Lemma elem_then_run {A} (r k : run A) (a : A) :
  a ∈ (then_run r k).1 → a ∈ r.1 ∨ a ∈ k.1.
Proof.
  destruct r as [es [[] | x]]; simpl; [| by left].
  rewrite elem_of_app. tauto.
Qed.

Lemma then_run_raise {A} (r k : run A) (x : exn) :
  (then_run r k).2 = Raise x → r.2 = Raise x ∨ k.2 = Raise x.
Proof. destruct r as [es [[] | y]]; simpl; tauto. Qed.

Lemma append_length (s r : string) :
  String.length (s +:+ r) = String.length s + String.length r.
Proof. induction s as [| c s IH]; simpl; [done | by rewrite IH]. Qed.

Lemma items_list_elem (w : WordpressBlog) (u : string) :
  u ∈ items_list w →
  ∃ n : Z, (1 ≤ n ≤ max_pages w)%Z
           ∧ u = feed_url w +:+ "?paged=" +:+ PyStr.str_of_int n.
Proof.
  unfold items_list. intros (page & -> & Hin)%list_elem_of_fmap.
  apply elem_of_seqZ in Hin. exists (page + 1)%Z. split; [lia | done].
Qed.

Lemma paged_url_not_url (w : WordpressBlog) (u : string) :
  u ∈ items_list w → u ≠ url w.
Proof.
  intros (n & _ & ->)%items_list_elem Heq.
  apply (f_equal String.length) in Heq. unfold feed_url in Heq.
  rewrite !append_length in Heq. simpl in Heq. lia.
Qed.

Lemma unprocessed_items_elem (w : WordpressBlog) (prior : list (gmap string value))
    (u : string) :
  u ∈ unprocessed_items w prior ↔
  u ∈ items_list w ∧ VStr u ∉ done_items prior.
Proof. unfold unprocessed_items, get_item_key. rewrite list_elem_of_filter. tauto. Qed.

Section ScraperFacts.

Variable parse : string -> FeedParserDict.
Variable clean : list string -> string -> string.
Variable url_to_filename : string -> string.

Lemma fetch_loop_app (w : WordpressBlog) (pre rest : list string) :
  ∀ last_title, all_pass parse last_title pre = true →
  fetch_loop parse clean url_to_filename w last_title (pre ++ rest) =
  then_run (pages_run parse clean url_to_filename w pre)
    (fetch_loop parse clean url_to_filename w (last_title_after parse last_title pre) rest).
Proof.
  induction pre as [| u pre IH]; intros last_title Hp; simpl.
  - by destruct (fetch_loop parse clean url_to_filename w last_title rest).
  - simpl in Hp. apply andb_prop in Hp as [Hu Hp]. apply negb_true_iff in Hu.
    rewrite Hu, (IH _ Hp).
    destruct (page_run clean url_to_filename w u (parse u)) as [es [[] | x]]; simpl; [| done].
    destruct (pages_run parse clean url_to_filename w pre) as [es' [[] | x]]; simpl;
      [by rewrite app_assoc | done].
Qed.

Lemma fetch_loop_stop (w : WordpressBlog) (last_title u : string) (post : list string) :
  end_of_feed (parse u) last_title = true →
  fetch_loop parse clean url_to_filename w last_title (u :: post) = ([], Ok tt).
Proof. intros H. simpl. by rewrite H. Qed.

Lemma pages_run_clean (w : WordpressBlog) (urls : list string) :
  (∀ u, u ∈ urls → (page_run clean url_to_filename w u (parse u)).2 = Ok tt) →
  pages_run parse clean url_to_filename w urls =
  (flat_map (fun u => (page_run clean url_to_filename w u (parse u)).1) urls, Ok tt).
Proof.
  induction urls as [| u urls IH]; intros H; simpl; [done |].
  rewrite IH by (intros; apply H; by right).
  specialize (H u ltac:(by left)).
  destruct (page_run clean url_to_filename w u (parse u)) as [es o]; simpl in *.
  by subst o.
Qed.

Lemma split_first_line (s : string) :
  ∃ rest, PyStr.split PyStr.newline s = PyStr.first_line s :: rest.
Proof.
  induction s as [| c s [rest IH]]; simpl; [by eexists |].
  destruct (Ascii.eqb c PyStr.newline); [by eexists |].
  rewrite IH. by eexists.
Qed.

Lemma append_nonempty (s r : string) (c : ascii) : s +:+ String c r ≠ EmptyString.
Proof. by destruct s. Qed.

Lemma item_text_nonempty (w : WordpressBlog) (title html : string) :
  item_text clean w title html ≠ EmptyString.
Proof. unfold item_text, PyStr.nl. apply append_nonempty. Qed.

Lemma entry_dict_fields (w : WordpressBlog) (paged_url text line : string) (i : value) :
  let e := <["id" := i]> (entry_dict url_to_filename w paged_url text line) in
  e !! "text" = Some (VStr text)
  ∧ e !! "url" = Some (VStr (url w))
  ∧ e !! "title" = Some (VStr line)
  ∧ e !! "source" = Some (VStr (url_to_filename (url w)))
  ∧ e !! "date_published" = Some (VStr "n/a")
  ∧ e !! "paged_url" = Some (VStr paged_url)
  ∧ e !! "id" = Some i.
Proof. repeat split; reflexivity. Qed.

(** What [make_entry] returns when it returns. *)
Lemma make_entry_ok (w : WordpressBlog) (paged_url : string) (item : FeedItem)
    (e : gmap string value) :
  make_entry clean url_to_filename w paged_url item = Ok e →
  ∃ title html cs,
    item_title item = Some title
    ∧ item_content item = Some (Some html :: cs)
    ∧ e = <["id" := VStr (DataEntry.content_hash (item_text clean w title html))]>
            (entry_dict url_to_filename w paged_url (item_text clean w title html)
               (PyStr.first_line (item_text clean w title html))).
Proof.
  unfold make_entry. destruct item as [ti co]; simpl.
  destruct co as [[| [html |] cs] |]; simpl; try discriminate.
  destruct ti as [title |]; simpl; try discriminate.
  destruct (split_first_line (item_text clean w title html)) as [rest ->]. simpl.
  rewrite (add_id_text _ (item_text clean w title html)).
  - intros [= <-]. by exists title, html, cs.
  - reflexivity.
  - apply item_text_nonempty.
Qed.

(** [make_entry] returns on every item that has a title and a first
    content value: the assertion of [add_id] does not fire. *)
Lemma make_entry_total (w : WordpressBlog) (paged_url : string) (item : FeedItem)
    (title html : string) (cs : list (option string)) :
  item_title item = Some title → item_content item = Some (Some html :: cs) →
  ∃ e, make_entry clean url_to_filename w paged_url item = Ok e.
Proof.
  intros Ht Hc. unfold make_entry. rewrite Hc, Ht. simpl.
  destruct (split_first_line (item_text clean w title html)) as [rest ->]. simpl.
  rewrite (add_id_text _ (item_text clean w title html));
    [by eexists | reflexivity | apply item_text_nonempty].
Qed.

(** The exceptions [make_entry] can raise are those of the item lookups. *)
Lemma make_entry_raise (w : WordpressBlog) (paged_url : string) (item : FeedItem)
    (x : exn) :
  make_entry clean url_to_filename w paged_url item = Raise x →
  x = KeyError "content" ∨ x = IndexError ∨ x = KeyError "value" ∨ x = KeyError "title".
Proof.
  unfold make_entry. destruct item as [ti co]; simpl.
  destruct co as [[| [html |] cs] |]; simpl; try (intros [= <-]; tauto).
  destruct ti as [title |]; simpl; try (intros [= <-]; tauto).
  destruct (split_first_line (item_text clean w title html)) as [rest ->]. simpl.
  rewrite (add_id_text _ (item_text clean w title html));
    [discriminate | reflexivity | apply item_text_nonempty].
Qed.

Lemma elem_page_entries (w : WordpressBlog) (paged_url : string) (items : list FeedItem)
    (e : gmap string value) :
  e ∈ (page_entries clean url_to_filename w paged_url items).1 →
  ∃ item, item ∈ items ∧ make_entry clean url_to_filename w paged_url item = Ok e.
Proof.
  induction items as [| item items IH]; simpl; [by intros ?%elem_of_nil |].
  destruct (make_entry clean url_to_filename w paged_url item) as [e0 | x] eqn:Hm;
    [| by intros ?%elem_of_nil].
  destruct (page_entries clean url_to_filename w paged_url items) as [es o]; simpl in *.
  intros [-> | Hin]%elem_of_cons.
  - exists item. split; [by left | done].
  - destruct (IH Hin) as (item' & ? & ?). exists item'. split; [by right | done].
Qed.

Lemma page_entries_raise (w : WordpressBlog) (paged_url : string) (items : list FeedItem)
    (x : exn) :
  (page_entries clean url_to_filename w paged_url items).2 = Raise x →
  ∃ item, item ∈ items ∧ make_entry clean url_to_filename w paged_url item = Raise x.
Proof.
  induction items as [| item items IH]; simpl; [discriminate |].
  destruct (make_entry clean url_to_filename w paged_url item) as [e0 | y] eqn:Hm.
  - destruct (page_entries clean url_to_filename w paged_url items) as [es o]; simpl in *.
    intros Hx. destruct (IH Hx) as (item' & ? & ?). exists item'. split; [by right | done].
  - simpl. intros [= ->]. exists item. split; [by left | done].
Qed.

Lemma elem_fetch_loop (w : WordpressBlog) (urls : list string) (e : gmap string value) :
  ∀ last_title,
  e ∈ (fetch_loop parse clean url_to_filename w last_title urls).1 →
  ∃ u items item,
    u ∈ urls ∧ d_entries (parse u) = Some items ∧ item ∈ items
    ∧ make_entry clean url_to_filename w u item = Ok e.
Proof.
  induction urls as [| u urls IH]; intros last_title; simpl; [by intros ?%elem_of_nil |].
  destruct (end_of_feed (parse u) last_title); [by intros ?%elem_of_nil |].
  intros [Hin | Hin]%elem_then_run.
  - unfold page_run in Hin. destruct (d_entries (parse u)) as [items |] eqn:Hi;
      [| by apply elem_of_nil in Hin].
    destruct (elem_page_entries _ _ _ _ Hin) as (item & ? & ?).
    exists u, items, item. repeat split; [by left | done..].
  - destruct (IH _ Hin) as (u' & items & item & ? & ? & ? & ?).
    exists u', items, item. repeat split; [by right | done..].
Qed.

Lemma fetch_loop_raise (w : WordpressBlog) (urls : list string) (x : exn) :
  ∀ last_title,
  (fetch_loop parse clean url_to_filename w last_title urls).2 = Raise x →
  x = KeyError "entries"
  ∨ ∃ u item, u ∈ urls ∧ make_entry clean url_to_filename w u item = Raise x.
Proof.
  induction urls as [| u urls IH]; intros last_title; simpl; [discriminate |].
  destruct (end_of_feed (parse u) last_title); [discriminate |].
  intros [Hx | Hx]%then_run_raise.
  - unfold page_run in Hx. destruct (d_entries (parse u)) as [items |].
    + destruct (page_entries_raise _ _ _ _ Hx) as (item & ? & ?).
      right. exists u, item. split; [by left | done].
    + simpl in Hx. left. congruence.
  - destruct (IH _ Hx) as [-> | (u' & item & ? & ?)]; [by left |].
    right. exists u', item. split; [by right | done].
Qed.

Lemma title_field_pass (d : FeedParserDict) (t last_title : string) :
  title_field d = Some t → t ≠ last_title →
  end_of_feed d last_title = false ∧ page_title d = t.
Proof.
  unfold title_field, end_of_feed, page_title. intros Ht Hne.
  destruct (d_feed d) as [f |]; [| done]. rewrite Ht. simpl.
  split; [by apply String.eqb_neq | done].
Qed.

(** C2. The run of [fetch_entries] stops at the first page that lacks feed
    metadata, lacks a title, or repeats the title of the page before it
    (the empty string before the first page): the run is that of the pages
    before it, nothing of that page or of a later one is yielded, and when
    none of the earlier pages raised the run ends normally with exactly
    their entries. When the third page repeats the title of the second,
    pages one and two contribute. A page with no item and a new title does
    not stop the loop. *)
Theorem fetch_entries_stops_at_end_of_feed (w : WordpressBlog)
    (prior : list (gmap string value)) :
  (∀ pre u post,
     unprocessed_items w prior = pre ++ u :: post →
     all_pass parse EmptyString pre = true →
     d_feed (parse u) = None
     ∨ (∃ f, d_feed (parse u) = Some f ∧ feed_title f = None)
     ∨ (∃ f, d_feed (parse u) = Some f
             ∧ feed_title f = Some (last_title_after parse EmptyString pre)) →
     fetch_entries parse clean url_to_filename w prior
       = pages_run parse clean url_to_filename w pre
     ∧ ((∀ p, p ∈ pre → (page_run clean url_to_filename w p (parse p)).2 = Ok tt) →
        fetch_entries parse clean url_to_filename w prior
          = (flat_map (fun p => (page_run clean url_to_filename w p (parse p)).1) pre,
             Ok tt)))
  ∧ (∀ u1 u2 u3 post t1 t2,
     unprocessed_items w prior = u1 :: u2 :: u3 :: post →
     title_field (parse u1) = Some t1 → t1 ≠ EmptyString →
     title_field (parse u2) = Some t2 → t2 ≠ t1 →
     title_field (parse u3) = Some t2 →
     fetch_entries parse clean url_to_filename w prior
       = then_run (page_run clean url_to_filename w u1 (parse u1))
                  (page_run clean url_to_filename w u2 (parse u2)))
  ∧ (∀ last_title u rest t,
     title_field (parse u) = Some t → t ≠ last_title →
     d_entries (parse u) = Some [] →
     fetch_loop parse clean url_to_filename w last_title (u :: rest)
       = fetch_loop parse clean url_to_filename w t rest).
Proof.
  split; [| split].
  - intros pre u post Hu Hpre Hend. apply end_of_feed_spec in Hend.
    assert (fetch_entries parse clean url_to_filename w prior
            = pages_run parse clean url_to_filename w pre) as Hrun.
    { unfold fetch_entries. rewrite Hu, (fetch_loop_app w pre (u :: post) _ Hpre).
      rewrite (fetch_loop_stop w _ u post Hend). apply then_run_done. }
    split; [exact Hrun |]. intros Hok. rewrite Hrun. by apply pages_run_clean.
  - intros u1 u2 u3 post t1 t2 Hu H1 Hn1 H2 Hn2 H3.
    destruct (title_field_pass _ _ _ H1 Hn1) as [E1 P1].
    destruct (title_field_pass _ _ _ H2 Hn2) as [E2 P2].
    unfold fetch_entries. rewrite Hu. simpl. rewrite E1, P1, E2, P2.
    assert (end_of_feed (parse u3) t2 = true) as ->.
    { unfold title_field in H3. unfold end_of_feed.
      destruct (d_feed (parse u3)) as [f |]; [| done]. rewrite H3. apply String.eqb_refl. }
    by rewrite then_run_done.
  - intros last_title u rest t Ht Hne Hnil.
    destruct (title_field_pass _ _ _ Ht Hne) as [E P].
    simpl. rewrite E, P. unfold page_run. rewrite Hnil. simpl.
    by destruct (fetch_loop parse clean url_to_filename w t rest).
Qed.

(** C10. [last_title] starts as the empty string, so a first fetched page
    whose feed title is the empty string ends the run at once: nothing is
    yielded and nothing is raised. *)
Theorem fetch_entries_empty_first_title (w : WordpressBlog)
    (prior : list (gmap string value)) (u : string) (rest : list string) :
  unprocessed_items w prior = u :: rest →
  title_field (parse u) = Some EmptyString →
  fetch_entries parse clean url_to_filename w prior = ([], Ok tt).
Proof.
  intros Hu Ht. unfold fetch_entries. rewrite Hu. apply fetch_loop_stop.
  apply end_of_feed_spec. unfold title_field in Ht.
  destruct (d_feed (parse u)) as [f |]; [| by left]. right. right. eauto.
Qed.

(** C7. Every entry that [fetch_entries] yields comes from an item of a
    fetched page and has: [text] the item title, a blank line and the cleaned
    body; [url] the URL of the blog, which is not the paged URL; [title] the
    first line of the text; [source] the name [url_to_filename] derives from
    the URL; [date_published] the string 'n/a'; [paged_url] the URL of the
    page fetched. *)
Theorem fetch_entries_entry_fields (w : WordpressBlog)
    (prior : list (gmap string value)) (e : gmap string value) :
  e ∈ (fetch_entries parse clean url_to_filename w prior).1 →
  ∃ paged_url items item title html cs,
    paged_url ∈ unprocessed_items w prior
    ∧ d_entries (parse paged_url) = Some items ∧ item ∈ items
    ∧ item_title item = Some title ∧ item_content item = Some (Some html :: cs)
    ∧ e !! "text" = Some (VStr (title +:+ PyStr.nl +:+ PyStr.nl +:+ clean (strip w) html))
    ∧ e !! "url" = Some (VStr (url w)) ∧ paged_url ≠ url w
    ∧ e !! "title" = Some (VStr (PyStr.first_line
                        (title +:+ PyStr.nl +:+ PyStr.nl +:+ clean (strip w) html)))
    ∧ e !! "source" = Some (VStr (url_to_filename (url w)))
    ∧ e !! "date_published" = Some (VStr "n/a")
    ∧ e !! "paged_url" = Some (VStr paged_url).
Proof.
  unfold fetch_entries.
  intros (u & items & item & Hu & Hitems & Hitem & Hm)%elem_fetch_loop.
  apply make_entry_ok in Hm as (title & html & cs & Ht & Hc & ->).
  exists u, items, item, title, html, cs.
  destruct (entry_dict_fields w u (item_text clean w title html)
              (PyStr.first_line (item_text clean w title html))
              (VStr (DataEntry.content_hash (item_text clean w title html))))
    as (F1 & F2 & F3 & F4 & F5 & F6 & _).
  repeat split; try done.
  apply paged_url_not_url. by apply unprocessed_items_elem in Hu as [? _].
Qed.

(** C9. On every item that has a title and a first content value the text
    built is not empty and [make_entry] returns, so the assertion of [add_id]
    does not fire: no run of [fetch_entries] ends with an assertion error,
    and every entry yielded carries its non-empty text and, as [id], the
    content hash of that text, which [_verify_id] accepts. *)
Theorem fetch_entries_ids (w : WordpressBlog) (prior : list (gmap string value)) :
  (∀ paged_url item title html cs,
     item_title item = Some title → item_content item = Some (Some html :: cs) →
     item_text clean w title html ≠ EmptyString
     ∧ ∃ e, make_entry clean url_to_filename w paged_url item = Ok e)
  ∧ (∀ msg, (fetch_entries parse clean url_to_filename w prior).2
            ≠ Raise (AssertionError msg))
  ∧ (∀ e, e ∈ (fetch_entries parse clean url_to_filename w prior).1 →
     ∃ t, e !! "text" = Some (VStr t) ∧ t ≠ EmptyString
          ∧ e !! "id" = Some (VStr (DataEntry.content_hash t))
          ∧ DataEntry._verify_id e = Ok tt).
Proof.
  split; [| split].
  - intros paged_url item title html cs Ht Hc.
    split; [apply item_text_nonempty | by eapply make_entry_total].
  - intros msg Hx. unfold fetch_entries in Hx.
    apply fetch_loop_raise in Hx as [Hx | (u & item & _ & Hm)]; [discriminate |].
    apply make_entry_raise in Hm as [E | [E | [E | E]]]; discriminate.
  - unfold fetch_entries.
    intros e (u & items & item & _ & _ & _ & Hm)%elem_fetch_loop.
    apply make_entry_ok in Hm as (title & html & cs & _ & _ & ->).
    destruct (entry_dict_fields w u (item_text clean w title html)
                (PyStr.first_line (item_text clean w title html))
                (VStr (DataEntry.content_hash (item_text clean w title html))))
      as (F1 & _ & _ & _ & _ & _ & F7).
    exists (item_text clean w title html).
    split; [exact F1 |]. split; [apply item_text_nonempty |]. split; [exact F7 |].
    rewrite (verify_id_text _ _ _ F7 F1). by case_decide.
Qed.

End ScraperFacts.

Lemma fetch_entries_stops_at_end_of_feed_witness :
  fetch_entries sample_parse sample_clean sample_url_to_filename sample_blog []
  = pages_run sample_parse sample_clean sample_url_to_filename sample_blog
      ["http://b.org/feed?paged=1"; "http://b.org/feed?paged=2"]
  ∧ length (fetch_entries sample_parse sample_clean sample_url_to_filename sample_blog []).1 = 2
  ∧ (fetch_entries sample_parse sample_clean sample_url_to_filename sample_blog []).2 = Ok tt.
Proof.
  destruct (fetch_entries_stops_at_end_of_feed sample_parse sample_clean
              sample_url_to_filename sample_blog []) as (H & _ & _).
  destruct (H ["http://b.org/feed?paged=1"; "http://b.org/feed?paged=2"]
              "http://b.org/feed?paged=3" ["http://b.org/feed?paged=4"]) as [H1 H2].
  - vm_compute. reflexivity.
  - vm_compute. reflexivity.
  - right. right. eexists. split; vm_compute; reflexivity.
  - split; [exact H1 |]. rewrite H1. split; vm_compute; reflexivity.
Defined.

Lemma fetch_entries_empty_first_title_witness :
  fetch_entries untitled_parse sample_clean sample_url_to_filename sample_blog []
  = ([], Ok tt).
Proof.
  apply (fetch_entries_empty_first_title untitled_parse sample_clean
           sample_url_to_filename sample_blog [] "http://b.org/feed?paged=1"
           ["http://b.org/feed?paged=2"; "http://b.org/feed?paged=3";
            "http://b.org/feed?paged=4"]).
  - vm_compute. reflexivity.
  - vm_compute. reflexivity.
Defined.

Lemma sample_entry_yielded :
  sample_entry ∈ (fetch_entries sample_parse sample_clean sample_url_to_filename
                    sample_blog []).1.
Proof. by_deciding. Defined.

Lemma fetch_entries_entry_fields_witness :
  ∃ paged_url items item title html cs,
    paged_url ∈ unprocessed_items sample_blog []
    ∧ d_entries (sample_parse paged_url) = Some items ∧ item ∈ items
    ∧ item_title item = Some title ∧ item_content item = Some (Some html :: cs)
    ∧ sample_entry !! "text"
      = Some (VStr (title +:+ PyStr.nl +:+ PyStr.nl +:+ sample_clean (strip sample_blog) html))
    ∧ sample_entry !! "url" = Some (VStr (url sample_blog)) ∧ paged_url ≠ url sample_blog
    ∧ sample_entry !! "title"
      = Some (VStr (PyStr.first_line
           (title +:+ PyStr.nl +:+ PyStr.nl +:+ sample_clean (strip sample_blog) html)))
    ∧ sample_entry !! "source" = Some (VStr (sample_url_to_filename (url sample_blog)))
    ∧ sample_entry !! "date_published" = Some (VStr "n/a")
    ∧ sample_entry !! "paged_url" = Some (VStr paged_url).
Proof.
  exact (fetch_entries_entry_fields sample_parse sample_clean sample_url_to_filename
           sample_blog [] sample_entry sample_entry_yielded).
Defined.

Lemma fetch_entries_ids_witness :
  ∃ t, sample_entry !! "text" = Some (VStr t) ∧ t ≠ EmptyString
       ∧ sample_entry !! "id" = Some (VStr (DataEntry.content_hash t))
       ∧ DataEntry._verify_id sample_entry = Ok tt.
Proof.
  destruct (fetch_entries_ids sample_parse sample_clean sample_url_to_filename
              sample_blog []) as (_ & _ & H).
  exact (H sample_entry sample_entry_yielded).
Defined.

(** C8. [items_list] is the list of the URLs [feed_url?paged=N] for [N] from
    1 to [max_pages] in increasing order, so it has [max_pages] elements, the
    one at index [i] being page [i + 1]; [max_pages] is 2000 when the
    constructor is not given one. *)
Theorem items_list_pages (w : WordpressBlog) :
  items_list w
    = (fun n => feed_url w +:+ "?paged=" +:+ PyStr.str_of_int n) <$> seqZ 1 (max_pages w)
  ∧ ((0 ≤ max_pages w)%Z → Z.of_nat (length (items_list w)) = max_pages w)
  ∧ (∀ i : nat, (Z.of_nat i < max_pages w)%Z →
       items_list w !! i
       = Some (feed_url w +:+ "?paged=" +:+ PyStr.str_of_int (Z.of_nat i + 1)))
  ∧ (∀ url0 strip0, max_pages (WordpressBlog_init url0 strip0 None) = 2000%Z).
Proof.
  split; [| split; [| split]].
  - unfold items_list. rewrite <- (fmap_add_seqZ 1 0), <- list_fmap_compose.
    apply list_fmap_ext. intros _ page _. simpl. by rewrite Z.add_comm.
  - intros Hn. unfold items_list. rewrite length_fmap, length_seqZ. lia.
  - intros i Hi. unfold items_list. rewrite list_lookup_fmap, lookup_seqZ_lt by done.
    simpl. by rewrite Z.add_0_l.
  - reflexivity.
Qed.

Lemma items_list_pages_witness :
  Z.of_nat (length (items_list (WordpressBlog_init "http://b.org" None None))) = 2000%Z
  ∧ items_list (WordpressBlog_init "http://b.org" None None) !! 6
    = Some "http://b.org/feed?paged=7".
Proof.
  destruct (items_list_pages (WordpressBlog_init "http://b.org" None None))
    as (_ & H1 & H2 & _).
  split.
  - apply H1. vm_compute. discriminate.
  - apply (H2 6). vm_compute. reflexivity.
Defined.

(** ** The writer *)

Lemma append_cons (c : ascii) (a b : string) : String c a +:+ b = String c (a +:+ b).
Proof. reflexivity. Qed.

Lemma append_assoc (a b c : string) : (a +:+ b) +:+ c = a +:+ b +:+ c.
Proof. induction a as [| x a IH]; [done |]. by rewrite !append_cons, IH. Qed.

Lemma append_nil_r (a : string) : a +:+ EmptyString = a.
Proof. induction a as [| x a IH]; [done |]. by rewrite append_cons, IH. Qed.

Lemma concat_cons (a : string) (l : list string) :
  String.concat EmptyString (a :: l) = a +:+ String.concat EmptyString l.
Proof. destruct l; simpl; [by rewrite append_nil_r | done]. Qed.

Lemma concat_app (l1 l2 : list string) :
  String.concat EmptyString (l1 ++ l2)
  = String.concat EmptyString l1 +:+ String.concat EmptyString l2.
Proof.
  induction l1 as [| a l1 IH]; [done |].
  rewrite <- app_comm_cons, !concat_cons, IH. by rewrite append_assoc.
Qed.

Lemma one_line_cons (c : ascii) (l : string) :
  PyStr.one_line (String c l) = true →
  Ascii.eqb c PyStr.newline = false ∧ Ascii.eqb c PyStr.cr = false
  ∧ PyStr.one_line l = true.
Proof.
  simpl. intros [[Hn Hr]%andb_prop Hl]%andb_prop.
  by apply negb_true_iff in Hn, Hr.
Qed.

Lemma universal_newlines_line (l rest : string) :
  PyStr.one_line l = true →
  PyStr.universal_newlines (l +:+ PyStr.nl +:+ rest)
  = l +:+ PyStr.nl +:+ PyStr.universal_newlines rest.
Proof.
  induction l as [| c l IH]; [done |].
  intros (_ & Hr & Hl)%one_line_cons.
  rewrite !append_cons. simpl. by rewrite Hr, (IH Hl).
Qed.

Lemma lines_line (l rest : string) :
  PyStr.one_line l = true →
  PyStr.lines (l +:+ PyStr.nl +:+ rest) = l :: PyStr.lines rest.
Proof.
  induction l as [| c l IH]; [done |].
  intros (Hn & _ & Hl)%one_line_cons.
  rewrite append_cons. simpl. by rewrite Hn, (IH Hl).
Qed.

Lemma lines_keepends_line (l rest : string) :
  PyStr.one_line l = true →
  PyStr.lines_keepends (l +:+ PyStr.nl +:+ rest)
  = (l +:+ PyStr.nl) :: PyStr.lines_keepends rest.
Proof.
  induction l as [| c l IH]; [done |].
  intros (Hn & _ & Hl)%one_line_cons.
  rewrite !append_cons. simpl. by rewrite Hn, (IH Hl).
Qed.

Lemma readlines_line (l rest : string) :
  PyStr.one_line l = true →
  PyStr.readlines (l +:+ PyStr.nl +:+ rest) = (l +:+ PyStr.nl) :: PyStr.readlines rest.
Proof.
  intros Hl. unfold PyStr.readlines.
  by rewrite (universal_newlines_line _ _ Hl), (lines_keepends_line _ _ Hl).
Qed.

Section WriterFacts.

Variable dumps : gmap string value -> string.
Variable loads : string -> option (gmap string value).

Lemma fold_write (es : list (gmap string value)) :
  ∀ fs, fold_left (Writer.write dumps) es fs
        = {| Writer.jsonl := Writer.jsonl fs +:+ Writer.records dumps es;
             Writer.txt := Writer.txt fs +:+ Writer.blocks es |}.
Proof.
  induction es as [| e es IH]; intros [j t]; simpl.
  - unfold Writer.records, Writer.blocks. simpl. by rewrite !append_nil_r.
  - rewrite IH. unfold Writer.records, Writer.blocks. simpl map.
    rewrite !concat_cons. simpl. by rewrite !append_assoc.
Qed.

Lemma session_fresh (overwrite : bool) (es : list (gmap string value))
    (fs : Writer.files) :
  overwrite = true ∨ fs = Writer.no_files →
  Writer.session dumps overwrite es fs
  = {| Writer.jsonl := Writer.records dumps es; Writer.txt := Writer.blocks es |}.
Proof.
  intros H. unfold Writer.session. rewrite fold_write.
  assert (Writer.open_files overwrite fs = Writer.no_files) as ->; [| done].
  destruct H as [-> | ->]; [done | by destruct overwrite].
Qed.

Lemma session_append (es : list (gmap string value)) (fs : Writer.files) :
  Writer.session dumps false es fs
  = {| Writer.jsonl := Writer.jsonl fs +:+ Writer.records dumps es;
       Writer.txt := Writer.txt fs +:+ Writer.blocks es |}.
Proof. unfold Writer.session. by rewrite fold_write. Qed.

Lemma records_app (es1 es2 : list (gmap string value)) :
  Writer.records dumps (es1 ++ es2)
  = Writer.records dumps es1 +:+ Writer.records dumps es2.
Proof. unfold Writer.records. by rewrite map_app, concat_app. Qed.

Lemma blocks_app (es1 es2 : list (gmap string value)) :
  Writer.blocks (es1 ++ es2) = Writer.blocks es1 +:+ Writer.blocks es2.
Proof. unfold Writer.blocks. by rewrite map_app, concat_app. Qed.

Lemma read_records (es : list (gmap string value)) :
  Forall (Writer.codec_ok dumps loads) es →
  Writer.read_jsonl loads (Writer.records dumps es) = Some es.
Proof.
  unfold Writer.read_jsonl, Writer.records.
  induction 1 as [| e es [Hl Hd] _ IH]; [done |].
  simpl map. rewrite concat_cons, append_assoc.
  rewrite (universal_newlines_line _ _ Hd), (lines_line _ _ Hd).
  simpl. rewrite Hl. simpl. by rewrite IH.
Qed.

Lemma one_line_flatten (a : string) : PyStr.one_line (Writer.flatten a) = true.
Proof.
  induction a as [| c a IH]; [done |].
  simpl. rewrite IH. unfold Writer.flatten_ascii.
  destruct (Ascii.eqb c PyStr.newline) eqn:Hn; [done |].
  destruct (Ascii.eqb c PyStr.cr) eqn:Hr; [done |]. simpl. by rewrite Hn, Hr.
Qed.

Lemma readlines_text_block (e : gmap string value) (rest : string) :
  ∃ l1 l2 l3,
    PyStr.readlines (Writer.text_block e +:+ rest) = l1 :: l2 :: l3 :: PyStr.readlines rest.
Proof.
  unfold Writer.text_block.
  rewrite !append_assoc, (readlines_line _ _ (one_line_flatten _)).
  change (PyStr.nl +:+ ?r) with (EmptyString +:+ PyStr.nl +:+ r).
  rewrite (readlines_line EmptyString) by done.
  rewrite (readlines_line _ _ (one_line_flatten _)). by eexists _, _, _.
Qed.

Lemma readlines_blocks (es : list (gmap string value)) :
  length (PyStr.readlines (Writer.blocks es)) = 3 * length es.
Proof.
  unfold Writer.blocks.
  induction es as [| e es IH]; [done |].
  simpl map. rewrite concat_cons.
  destruct (readlines_text_block e (String.concat EmptyString (map Writer.text_block es)))
    as (l1 & l2 & l3 & ->).
  simpl length. rewrite IH. lia.
Qed.

(** C3. Writing a list of entries to a fresh or truncated output pair and
    reading the jsonl file back gives exactly those entries in the same
    order, the codec decoding each record to its entry and keeping it on one
    line; the text file holds the text blocks of the same entries in the same
    order, one per record, and has exactly three lines per entry. *)
Theorem writer_round_trip (overwrite : bool) (es : list (gmap string value))
    (fs0 : Writer.files) :
  overwrite = true ∨ fs0 = Writer.no_files →
  Forall (Writer.codec_ok dumps loads) es →
  let fs := Writer.session dumps overwrite es fs0 in
  Writer.read_jsonl loads (Writer.jsonl fs) = Some es
  ∧ Writer.txt fs = Writer.blocks es
  ∧ length (PyStr.readlines (Writer.txt fs)) = 3 * length es.
Proof.
  intros Hfresh Hok. simpl. rewrite (session_fresh _ _ _ Hfresh). simpl.
  split; [by apply read_records |]. split; [done |]. apply readlines_blocks.
Qed.

(** C4. After a first session that writes [es] to a fresh output pair, a
    second session in append mode that writes [es] again leaves the entries
    [es ++ es], twice as many, in both files; a second session in overwrite
    mode leaves exactly [es] in both files. *)
Theorem writer_append_overwrite (mode : bool) (es : list (gmap string value)) :
  Forall (Writer.codec_ok dumps loads) es →
  let fs1 := Writer.session dumps mode es Writer.no_files in
  (Writer.read_jsonl loads (Writer.jsonl (Writer.session dumps false es fs1))
     = Some (es ++ es)
   ∧ Writer.txt (Writer.session dumps false es fs1) = Writer.blocks (es ++ es)
   ∧ length (es ++ es) = 2 * length es)
  ∧ (Writer.read_jsonl loads (Writer.jsonl (Writer.session dumps true es fs1))
       = Some es
     ∧ Writer.txt (Writer.session dumps true es fs1) = Writer.blocks es).
Proof.
  intros Hok. simpl.
  rewrite (session_fresh mode es Writer.no_files) by (by right).
  rewrite session_append, (session_fresh true) by (by left). simpl.
  rewrite <- records_app, <- blocks_app.
  repeat split; try done.
  - apply read_records. by apply Forall_app.
  - rewrite length_app. lia.
  - by apply read_records.
Qed.

End WriterFacts.

Lemma fixture_codec_ok :
  Forall (Writer.codec_ok sample_dumps sample_loads) fixture_entries.
Proof. repeat constructor; vm_compute; reflexivity. Defined.

Lemma writer_round_trip_witness :
  let fs := Writer.session sample_dumps false fixture_entries Writer.no_files in
  Writer.read_jsonl sample_loads (Writer.jsonl fs) = Some fixture_entries
  ∧ length (PyStr.readlines (Writer.txt fs)) = 3 * length fixture_entries.
Proof.
  destruct (writer_round_trip sample_dumps sample_loads false fixture_entries
              Writer.no_files (or_intror eq_refl) fixture_codec_ok) as (H1 & _ & H3).
  split; [exact H1 | exact H3].
Defined.

Lemma writer_append_overwrite_witness :
  let fs1 := Writer.session sample_dumps false fixture_entries Writer.no_files in
  Writer.read_jsonl sample_loads (Writer.jsonl (Writer.session sample_dumps false fixture_entries fs1))
    = Some (fixture_entries ++ fixture_entries)
  ∧ Writer.read_jsonl sample_loads (Writer.jsonl (Writer.session sample_dumps true fixture_entries fs1))
    = Some fixture_entries.
Proof.
  destruct (writer_append_overwrite sample_dumps sample_loads false fixture_entries
              fixture_codec_ok) as ((H1 & _ & _) & (H2 & _)).
  split; [exact H1 | exact H2].
Defined.

(** * Further properties of the scraper *)

(** ** [items_list] *)

Lemma to_int_not_nil (z : Z) :
  Z.to_int z ≠ Decimal.Pos Decimal.Nil ∧ Z.to_int z ≠ Decimal.Neg Decimal.Nil.
Proof.
  assert (Z.to_int z = Decimal.norm (Z.to_int z)) as Hn.
  { rewrite <- DecimalZ.to_of. by rewrite DecimalZ.of_to. }
  split; intros E; rewrite E in Hn; discriminate.
Qed.

Lemma str_of_int_inj (a b : Z) : PyStr.str_of_int a = PyStr.str_of_int b → a = b.
Proof.
  unfold PyStr.str_of_int. intros E.
  destruct (to_int_not_nil a) as [Ha1 Ha2]. destruct (to_int_not_nil b) as [Hb1 Hb2].
  apply DecimalZ.to_int_inj.
  assert (NilZero.int_of_string (NilZero.string_of_int (Z.to_int a))
          = NilZero.int_of_string (NilZero.string_of_int (Z.to_int b))) as E'
    by (by rewrite E).
  rewrite !NilZero.isi in E' by done. congruence.
Qed.

Lemma append_inj_r (a b c : string) : a +:+ b = a +:+ c → b = c.
Proof.
  induction a as [| x a IH]; [done |]. rewrite !append_cons. intros [= E]. by apply IH.
Qed.

(** X1. No URL occurs twice in [items_list]: each page has its own fetch
    target, hence its own [done_key] value. *)
Theorem items_list_NoDup (w : WordpressBlog) : NoDup (items_list w).
Proof.
  unfold items_list. apply NoDup_fmap_2_strong; [| apply NoDup_seqZ].
  intros a b _ _ E. apply append_inj_r, append_inj_r, str_of_int_inj in E. lia.
Qed.

Lemma items_list_app (w w' : WordpressBlog) :
  url w = url w' → (max_pages w ≤ max_pages w')%Z →
  ∃ more, items_list w' = items_list w ++ more.
Proof.
  intros Hu Hle. unfold items_list, feed_url. rewrite <- Hu.
  destruct (decide (max_pages w ≤ 0)%Z) as [H0 | H0].
  - rewrite (seqZ_nil _ (max_pages w)) by done. by eexists.
  - replace (max_pages w') with (max_pages w + (max_pages w' - max_pages w))%Z by lia.
    rewrite seqZ_app by lia. rewrite fmap_app. by eexists.
Qed.

(** X2. [items_list] grows by appending: with the same [url], the list for a
    smaller [max_pages] is a prefix of the list for a larger one; with
    [max_pages] zero or negative the list is empty. *)
Theorem items_list_prefix (w w' : WordpressBlog) :
  url w = url w' →
  ((max_pages w ≤ max_pages w')%Z → items_list w `prefix_of` items_list w')
  ∧ ((max_pages w ≤ 0)%Z → items_list w = []).
Proof.
  intros Hu. split.
  - intros Hle. destruct (items_list_app w w' Hu Hle) as [more ->]. by apply prefix_app_r.
  - intros H0. unfold items_list. by rewrite seqZ_nil.
Qed.

Lemma items_list_prefix_witness :
  items_list (WordpressBlog_init "http://b.org" None (Some 2%Z))
    `prefix_of` items_list sample_blog
  ∧ items_list (WordpressBlog_init "http://b.org" None (Some (-1)%Z)) = [].
Proof.
  split.
  - apply (items_list_prefix (WordpressBlog_init "http://b.org" None (Some 2%Z)) sample_blog);
      [reflexivity | vm_compute; discriminate].
  - apply (items_list_prefix (WordpressBlog_init "http://b.org" None (Some (-1)%Z)) sample_blog);
      [reflexivity | vm_compute; discriminate].
Defined.

(** ** The inner loop *)

Lemma flat_map_ext_elem {A B} (f g : A → list B) (l : list A) :
  (∀ a, a ∈ l → f a = g a) → flat_map f l = flat_map g l.
Proof.
  induction l as [| a l IH]; intros H; simpl; [done |].
  rewrite (H a) by (by left). rewrite IH; [done |]. intros b Hb. apply H. by right.
Qed.

Section ScraperItems.

Variable parse : string -> FeedParserDict.
Variable clean : list string -> string -> string.
Variable url_to_filename : string -> string.

Lemma item_parts_Some (item : FeedItem) (title html : string) :
  item_parts item = Some (title, html) ↔
  item_title item = Some title ∧ ∃ cs, item_content item = Some (Some html :: cs).
Proof.
  unfold item_parts. destruct item as [ti co]; simpl.
  destruct co as [[| [h |] cs] |], ti as [t |]; split;
    try discriminate; try (intros [? [? ?]]; discriminate).
  - intros [= -> ->]. eauto.
  - intros [[= ->] [cs' [= -> _]]]. done.
Qed.

Lemma make_entry_parts (w : WordpressBlog) (paged_url : string) (item : FeedItem)
    (p : string * string) :
  item_parts item = Some p →
  make_entry clean url_to_filename w paged_url item
  = Ok (built_entry clean url_to_filename w paged_url p).
Proof.
  destruct p as [title html]. intros [Ht [cs Hc]]%item_parts_Some.
  destruct (make_entry_total clean url_to_filename w paged_url item title html cs Ht Hc)
    as [e He].
  rewrite He. f_equal.
  apply make_entry_ok in He as (title' & html' & cs' & Ht' & Hc' & ->).
  rewrite Ht in Ht'. rewrite Hc in Hc'. by simplify_eq.
Qed.

(** X3. Which exception an ill-formed item raises: the content is looked up
    first ([KeyError] 'content', [IndexError] on an empty content list,
    [KeyError] 'value'), the title after it ([KeyError] 'title'); an item
    with a title and a first content value gives its entry. *)
Theorem make_entry_lookups (w : WordpressBlog) (paged_url : string) (item : FeedItem) :
  (item_content item = None →
     make_entry clean url_to_filename w paged_url item = Raise (KeyError "content"))
  ∧ (item_content item = Some [] →
     make_entry clean url_to_filename w paged_url item = Raise IndexError)
  ∧ (∀ cs, item_content item = Some (None :: cs) →
     make_entry clean url_to_filename w paged_url item = Raise (KeyError "value"))
  ∧ (∀ html cs, item_content item = Some (Some html :: cs) → item_title item = None →
     make_entry clean url_to_filename w paged_url item = Raise (KeyError "title"))
  ∧ (∀ title html cs,
     item_content item = Some (Some html :: cs) → item_title item = Some title →
     make_entry clean url_to_filename w paged_url item
     = Ok (built_entry clean url_to_filename w paged_url (title, html))).
Proof.
  repeat split.
  - intros H. unfold make_entry. by rewrite H.
  - intros H. unfold make_entry. by rewrite H.
  - intros cs H. unfold make_entry. by rewrite H.
  - intros html cs H Ht. unfold make_entry. by rewrite H, Ht.
  - intros title html cs H Ht. apply make_entry_parts, item_parts_Some. eauto.
Qed.

Lemma page_entries_built (w : WordpressBlog) (paged_url : string) (items : list FeedItem) :
  Forall (fun item => is_Some (item_parts item)) items →
  page_entries clean url_to_filename w paged_url items
  = (omap (fun item => built_entry clean url_to_filename w paged_url <$> item_parts item)
       items, Ok tt).
Proof.
  induction 1 as [| item items [p Hp] _ IH]; [done |].
  simpl. rewrite (make_entry_parts _ _ _ _ Hp), IH, Hp. done.
Qed.

Lemma page_entries_raise_at (w : WordpressBlog) (paged_url : string)
    (good rest : list FeedItem) (bad : FeedItem) (x : exn) :
  Forall (fun item => is_Some (item_parts item)) good →
  make_entry clean url_to_filename w paged_url bad = Raise x →
  page_entries clean url_to_filename w paged_url (good ++ bad :: rest)
  = (omap (fun item => built_entry clean url_to_filename w paged_url <$> item_parts item)
       good, Raise x).
Proof.
  intros Hgood Hbad.
  induction Hgood as [| item items [p Hp] _ IH]; simpl.
  - by rewrite Hbad.
  - rewrite (make_entry_parts _ _ _ _ Hp), IH, Hp. done.
Qed.

Lemma pages_run_built (w : WordpressBlog) (urls : list string) :
  (∀ u, u ∈ urls → ∃ items, d_entries (parse u) = Some items
                   ∧ Forall (fun item => is_Some (item_parts item)) items) →
  pages_run parse clean url_to_filename w urls
  = (flat_map (fun u => page_built clean url_to_filename w u (parse u)) urls, Ok tt).
Proof.
  intros H. rewrite pages_run_clean.
  - f_equal. apply flat_map_ext_elem. intros u Hu.
    destruct (H u Hu) as (items & Hi & Hok).
    unfold page_run, page_built. rewrite Hi. simpl. by rewrite page_entries_built.
  - intros u Hu. destruct (H u Hu) as (items & Hi & Hok).
    unfold page_run. rewrite Hi. by rewrite page_entries_built.
Qed.

Lemma fetch_loop_all_pass (w : WordpressBlog) (last_title : string) (urls : list string) :
  all_pass parse last_title urls = true →
  fetch_loop parse clean url_to_filename w last_title urls
  = pages_run parse clean url_to_filename w urls.
Proof.
  intros H. rewrite <- (app_nil_r urls) at 1.
  rewrite (fetch_loop_app parse clean url_to_filename w urls [] _ H). simpl.
  apply then_run_done.
Qed.

(** X4. On a feed whose pages all pass the [break] and whose items all have
    a title and a first content value, the run ends normally and yields
    exactly one entry per item: page after page in the order fetched, the
    items of a page in feed order, duplicates included. *)
Theorem fetch_loop_yields_all (w : WordpressBlog) (last_title : string)
    (urls : list string) :
  all_pass parse last_title urls = true →
  (∀ u, u ∈ urls → ∃ items, d_entries (parse u) = Some items
                   ∧ Forall (fun item => is_Some (item_parts item)) items) →
  fetch_loop parse clean url_to_filename w last_title urls
  = (flat_map (fun u => page_built clean url_to_filename w u (parse u)) urls, Ok tt).
Proof.
  intros Hpass Hitems. rewrite (fetch_loop_all_pass _ _ _ Hpass).
  by apply pages_run_built.
Qed.

(** X5. An item that raises ends the run there: the entries of the pages
    before and of the items before it on its page have been yielded, the
    exception of the item is the outcome, and nothing after it is yielded,
    neither the rest of the page nor any later page. *)
Theorem fetch_loop_raise_at (w : WordpressBlog) (last_title : string)
    (pre post : list string) (u : string) (good rest : list FeedItem)
    (bad : FeedItem) (x : exn) :
  all_pass parse last_title (pre ++ [u]) = true →
  (∀ p, p ∈ pre → ∃ items, d_entries (parse p) = Some items
                   ∧ Forall (fun item => is_Some (item_parts item)) items) →
  d_entries (parse u) = Some (good ++ bad :: rest) →
  Forall (fun item => is_Some (item_parts item)) good →
  make_entry clean url_to_filename w u bad = Raise x →
  fetch_loop parse clean url_to_filename w last_title (pre ++ u :: post)
  = (flat_map (fun p => page_built clean url_to_filename w p (parse p)) pre
     ++ omap (fun item => built_entry clean url_to_filename w u <$> item_parts item) good,
     Raise x).
Proof.
  intros Hpass Hpre Hu Hgood Hbad.
  assert (all_pass parse last_title pre = true
          ∧ end_of_feed (parse u) (last_title_after parse last_title pre) = false)
    as [Hp Hne].
  { clear -Hpass. revert last_title Hpass.
    induction pre as [| p pre IH]; simpl; intros last_title H.
    - apply andb_prop in H as [H _]. by apply negb_true_iff in H.
    - apply andb_prop in H as [H1 H2]. rewrite H1. simpl. by apply IH. }
  rewrite (fetch_loop_app parse clean url_to_filename w pre (u :: post) _ Hp).
  rewrite (pages_run_built w pre Hpre). simpl. rewrite Hne.
  unfold page_run. rewrite Hu, (page_entries_raise_at _ _ _ _ _ _ Hgood Hbad). done.
Qed.

End ScraperItems.

Lemma make_entry_lookups_witness :
  make_entry sample_clean sample_url_to_filename sample_blog "http://b.org/feed?paged=1"
    {| item_title := None; item_content := None |} = Raise (KeyError "content")
  ∧ make_entry sample_clean sample_url_to_filename sample_blog "http://b.org/feed?paged=1"
      {| item_title := None; item_content := Some [Some "<p>three</p>"] |}
    = Raise (KeyError "title").
Proof.
  split.
  - apply (make_entry_lookups sample_clean sample_url_to_filename sample_blog
             "http://b.org/feed?paged=1" {| item_title := None; item_content := None |}).
    reflexivity.
  - apply (make_entry_lookups sample_clean sample_url_to_filename sample_blog
             "http://b.org/feed?paged=1"
             {| item_title := None; item_content := Some [Some "<p>three</p>"] |})
      with (html := "<p>three</p>") (cs := []); reflexivity.
Defined.

Lemma sample_pages_items (u : string) :
  u ∈ ["http://b.org/feed?paged=1"; "http://b.org/feed?paged=2"] →
  ∃ items, d_entries (sample_parse u) = Some items
           ∧ Forall (fun item => is_Some (item_parts item)) items.
Proof.
  intros [-> | [-> | H%elem_of_nil]%elem_of_cons]%elem_of_cons; [| | done];
    (eexists; split; [reflexivity | repeat constructor; by eexists]).
Defined.

Lemma fetch_loop_yields_all_witness :
  fetch_loop sample_parse sample_clean sample_url_to_filename sample_blog EmptyString
    ["http://b.org/feed?paged=1"; "http://b.org/feed?paged=2"]
  = (flat_map (fun u => page_built sample_clean sample_url_to_filename sample_blog u
                          (sample_parse u))
       ["http://b.org/feed?paged=1"; "http://b.org/feed?paged=2"], Ok tt).
Proof.
  apply (fetch_loop_yields_all sample_parse sample_clean sample_url_to_filename
           sample_blog EmptyString
           ["http://b.org/feed?paged=1"; "http://b.org/feed?paged=2"]).
  - vm_compute. reflexivity.
  - exact sample_pages_items.
Defined.

Lemma broken_first_page_items (p : string) :
  p ∈ ["http://b.org/feed?paged=1"] →
  ∃ items, d_entries (broken_parse p) = Some items
           ∧ Forall (fun item => is_Some (item_parts item)) items.
Proof.
  intros [-> | H%elem_of_nil]%elem_of_cons; [| done].
  eexists; split; [reflexivity | repeat constructor; by eexists].
Defined.

Lemma fetch_loop_raise_at_witness :
  fetch_loop broken_parse sample_clean sample_url_to_filename sample_blog EmptyString
    (["http://b.org/feed?paged=1"] ++ "http://b.org/feed?paged=2"
       :: ["http://b.org/feed?paged=3"])
  = (flat_map (fun p => page_built sample_clean sample_url_to_filename sample_blog p
                          (broken_parse p)) ["http://b.org/feed?paged=1"]
     ++ omap (fun item => built_entry sample_clean sample_url_to_filename sample_blog
                            "http://b.org/feed?paged=2" <$> item_parts item)
          [sample_item "Second" "<p>two</p>"],
     Raise (KeyError "title")).
Proof.
  apply (fetch_loop_raise_at broken_parse sample_clean sample_url_to_filename sample_blog
           EmptyString ["http://b.org/feed?paged=1"] ["http://b.org/feed?paged=3"]
           "http://b.org/feed?paged=2" [sample_item "Second" "<p>two</p>"]
           [sample_item "Fourth" "<p>four</p>"]
           {| item_title := None; item_content := Some [Some "<p>three</p>"] |}
           (KeyError "title")).
  - vm_compute. reflexivity.
  - exact broken_first_page_items.
  - reflexivity.
  - repeat constructor. by eexists.
  - reflexivity.
Defined.

(** ** The outer loop *)

Lemma then_run_prefix {A} (r k k' : run A) :
  k.1 `prefix_of` k'.1 → (then_run r k).1 `prefix_of` (then_run r k').1.
Proof. destruct r as [es [[] | x]]; simpl; [apply prefix_app | done]. Qed.

Lemma fetch_loop_ext (parse parse' : string → FeedParserDict)
    (clean : list string → string → string) (url_to_filename : string → string)
    (w : WordpressBlog) (urls : list string) :
  (∀ u, u ∈ urls → parse' u = parse u) →
  ∀ last_title,
  fetch_loop parse' clean url_to_filename w last_title urls
  = fetch_loop parse clean url_to_filename w last_title urls.
Proof.
  induction urls as [| u urls IH]; intros H last_title; simpl; [done |].
  rewrite (H u) by (by left).
  destruct (end_of_feed (parse u) last_title); [done |].
  rewrite IH; [done |]. intros v Hv. apply H. by right.
Qed.

Section ScraperRuns.

Variable parse : string -> FeedParserDict.
Variable clean : list string -> string -> string.
Variable url_to_filename : string -> string.

Lemma fetch_loop_prefix (w : WordpressBlog) (urls more : list string) :
  ∀ last_title,
  (fetch_loop parse clean url_to_filename w last_title urls).1
    `prefix_of` (fetch_loop parse clean url_to_filename w last_title (urls ++ more)).1
  ∧ (∀ x, (fetch_loop parse clean url_to_filename w last_title urls).2 = Raise x →
       fetch_loop parse clean url_to_filename w last_title (urls ++ more)
       = fetch_loop parse clean url_to_filename w last_title urls).
Proof.
  induction urls as [| u urls IH]; intros last_title; simpl.
  - split; [apply prefix_nil | discriminate].
  - destruct (end_of_feed (parse u) last_title); [split; [done | discriminate] |].
    destruct (IH (page_title (parse u))) as [IH1 IH2]. split.
    + by apply then_run_prefix.
    + destruct (page_run clean url_to_filename w u (parse u)) as [es [[] | y]]; simpl;
        [| done].
      intros x Hx. by rewrite (IH2 x Hx).
Qed.

(** X6. Fetching more pages only appends: the entries yielded over a list of
    URLs are a prefix of those yielded over any extension of it, in the same
    order; and when the shorter run ended with an exception the longer run
    is the same run. *)
Theorem fetch_loop_extends (w : WordpressBlog) (last_title : string)
    (urls more : list string) :
  (fetch_loop parse clean url_to_filename w last_title urls).1
    `prefix_of` (fetch_loop parse clean url_to_filename w last_title (urls ++ more)).1
  ∧ (∀ x, (fetch_loop parse clean url_to_filename w last_title urls).2 = Raise x →
       fetch_loop parse clean url_to_filename w last_title (urls ++ more)
       = fetch_loop parse clean url_to_filename w last_title urls).
Proof. apply fetch_loop_prefix. Qed.

(** X7. The run never yields more entries than the pages iterated hold
    items. *)
Theorem fetch_loop_length (w : WordpressBlog) (urls : list string) :
  ∀ last_title,
  length (fetch_loop parse clean url_to_filename w last_title urls).1
  ≤ length (flat_map (fun u => default [] (d_entries (parse u))) urls).
Proof.
  assert (∀ u items, length (page_entries clean url_to_filename w u items).1
                     ≤ length items) as Hpage.
  { intros u items. induction items as [| item items IH]; simpl; [done |].
    destruct (make_entry clean url_to_filename w u item); simpl; [| lia].
    destruct (page_entries clean url_to_filename w u items); simpl in *. lia. }
  induction urls as [| u urls IH]; intros last_title; simpl; [done |].
  rewrite length_app.
  destruct (end_of_feed (parse u) last_title); simpl; [lia |].
  specialize (IH (page_title (parse u))). unfold page_run.
  destruct (d_entries (parse u)) as [items |]; simpl; [| lia].
  specialize (Hpage u items).
  destruct (page_entries clean url_to_filename w u items) as [es [[] | y]]; simpl in *;
    [rewrite length_app |]; lia.
Qed.

End ScraperRuns.

Lemma fetch_loop_extends_witness :
  fetch_loop broken_parse sample_clean sample_url_to_filename sample_blog EmptyString
    (["http://b.org/feed?paged=1"; "http://b.org/feed?paged=2"]
       ++ ["http://b.org/feed?paged=3"])
  = fetch_loop broken_parse sample_clean sample_url_to_filename sample_blog EmptyString
      ["http://b.org/feed?paged=1"; "http://b.org/feed?paged=2"].
Proof.
  apply (fetch_loop_extends broken_parse sample_clean sample_url_to_filename sample_blog
           EmptyString ["http://b.org/feed?paged=1"; "http://b.org/feed?paged=2"]
           ["http://b.org/feed?paged=3"]) with (x := KeyError "title").
  vm_compute. reflexivity.
Defined.

Lemma all_pass_ext (parse parse' : string → FeedParserDict) (urls : list string) :
  (∀ u, u ∈ urls → parse' u = parse u) →
  ∀ last_title,
  all_pass parse' last_title urls = all_pass parse last_title urls
  ∧ last_title_after parse' last_title urls = last_title_after parse last_title urls.
Proof.
  induction urls as [| u urls IH]; intros H last_title; simpl; [done |].
  rewrite (H u) by (by left).
  destruct (IH (fun v Hv => H v (list_elem_of_further _ _ _ Hv)) (page_title (parse u)))
    as [-> ->].
  done.
Qed.

(** X8. Pages after the one that stops the loop are never consulted: two
    feeds that agree up to and including the stopping page give the same
    run, whatever they hold after it and however many URLs remain. *)
Theorem fetch_loop_ignores_after_stop (parse parse' : string → FeedParserDict)
    (clean : list string → string → string) (url_to_filename : string → string)
    (w : WordpressBlog) (last_title : string) (pre post post' : list string)
    (u : string) :
  all_pass parse last_title pre = true →
  end_of_feed (parse u) (last_title_after parse last_title pre) = true →
  (∀ p, p ∈ pre ++ [u] → parse' p = parse p) →
  fetch_loop parse' clean url_to_filename w last_title (pre ++ u :: post')
  = fetch_loop parse clean url_to_filename w last_title (pre ++ u :: post).
Proof.
  intros Hpass Hend Hagree.
  assert (∀ p, p ∈ pre → parse' p = parse p) as Hpre
    by (intros p Hp; apply Hagree, elem_of_app; by left).
  destruct (all_pass_ext parse parse' pre Hpre last_title) as [Hp' Hl'].
  rewrite (fetch_loop_app parse clean url_to_filename w pre (u :: post) _ Hpass).
  rewrite (fetch_loop_app parse' clean url_to_filename w pre (u :: post'))
    by (by rewrite Hp').
  rewrite (fetch_loop_stop parse clean url_to_filename w _ u post Hend).
  rewrite (fetch_loop_stop parse' clean url_to_filename w _ u post')
    by (rewrite Hl', (Hagree u); [done | apply elem_of_app; right; by left]).
  rewrite !then_run_done. rewrite <- !(fetch_loop_all_pass _ _ _ _ last_title);
    [by apply fetch_loop_ext | done | by rewrite Hp'].
Qed.

Lemma fetch_loop_ignores_after_stop_witness :
  fetch_loop (fun u => if String.eqb u "http://b.org/feed?paged=4"
                       then sample_page "Late" [sample_item "Late" "<p>late</p>"]
                       else sample_parse u)
    sample_clean sample_url_to_filename sample_blog EmptyString
    (["http://b.org/feed?paged=1"; "http://b.org/feed?paged=2"]
       ++ "http://b.org/feed?paged=3" :: ["http://b.org/feed?paged=4"])
  = fetch_loop sample_parse sample_clean sample_url_to_filename sample_blog EmptyString
      (["http://b.org/feed?paged=1"; "http://b.org/feed?paged=2"]
         ++ "http://b.org/feed?paged=3" :: []).
Proof.
  apply fetch_loop_ignores_after_stop.
  - vm_compute. reflexivity.
  - vm_compute. reflexivity.
  - intros p [-> | [-> | [-> | H%elem_of_nil]%elem_of_cons]%elem_of_cons]%elem_of_cons;
      [reflexivity | reflexivity | reflexivity | done].
Defined.

(** ** Titles *)

Lemma all_pass_titles (parse : string → FeedParserDict) (urls : list string)
    (titles : list string) :
  Forall2 (fun u t => title_field (parse u) = Some t) urls titles →
  ∀ last_title, adjacent_distinct last_title titles →
  all_pass parse last_title urls = true.
Proof.
  induction 1 as [| u t urls titles Hu _ IH]; intros last_title Hd; simpl; [done |].
  destruct Hd as [Hne Hd].
  destruct (title_field_pass _ _ _ Hu Hne) as [-> ->]. simpl. by apply IH.
Qed.

(** X9. Only the title of the page just before matters to the [break]: when
    every page has a title and each title differs from the one before it
    (the first from the empty string), every page contributes, even if a
    title comes back later in the feed. *)
Theorem fetch_loop_adjacent_titles (parse : string → FeedParserDict)
    (clean : list string → string → string) (url_to_filename : string → string)
    (w : WordpressBlog) (last_title : string) (urls titles : list string) :
  Forall2 (fun u t => title_field (parse u) = Some t) urls titles →
  adjacent_distinct last_title titles →
  fetch_loop parse clean url_to_filename w last_title urls
  = pages_run parse clean url_to_filename w urls.
Proof.
  intros Ht Hd. apply fetch_loop_all_pass. by eapply all_pass_titles.
Qed.

Lemma fetch_loop_adjacent_titles_witness :
  fetch_loop aba_parse sample_clean sample_url_to_filename sample_blog EmptyString
    ["http://b.org/feed?paged=1"; "http://b.org/feed?paged=2"; "http://b.org/feed?paged=3"]
  = pages_run aba_parse sample_clean sample_url_to_filename sample_blog
      ["http://b.org/feed?paged=1"; "http://b.org/feed?paged=2"; "http://b.org/feed?paged=3"].
Proof.
  apply (fetch_loop_adjacent_titles aba_parse sample_clean sample_url_to_filename
           sample_blog EmptyString _ ["A"; "B"; "A"]).
  - repeat constructor.
  - simpl. repeat split; discriminate.
Defined.

Lemma first_line_append (a b : string) :
  PyStr.first_line (a +:+ PyStr.nl +:+ b) = PyStr.first_line a.
Proof.
  induction a as [| c a IH]; [done |].
  rewrite append_cons. simpl. by rewrite IH.
Qed.

Lemma first_line_no_line_feed (a : string) :
  no_line_feed (PyStr.first_line a) = true
  ∧ (no_line_feed a = true → PyStr.first_line a = a).
Proof.
  induction a as [| c a [IH1 IH2]]; simpl; [done |].
  destruct (Ascii.eqb c PyStr.newline) eqn:Hc; simpl; [done |].
  rewrite Hc. simpl. split; [done |]. intros H. by rewrite IH2.
Qed.

Section ScraperEntries.

Variable parse : string -> FeedParserDict.
Variable clean : list string -> string -> string.
Variable url_to_filename : string -> string.

Lemma elem_fetch_loop_built (w : WordpressBlog) (last_title : string)
    (urls : list string) (e : gmap string value) :
  e ∈ (fetch_loop parse clean url_to_filename w last_title urls).1 →
  ∃ u items item title html,
    u ∈ urls ∧ d_entries (parse u) = Some items ∧ item ∈ items
    ∧ item_parts item = Some (title, html)
    ∧ e = built_entry clean url_to_filename w u (title, html).
Proof.
  intros (u & items & item & Hu & Hi & Hin & Hm)%elem_fetch_loop.
  apply make_entry_ok in Hm as (title & html & cs & Ht & Hc & ->).
  exists u, items, item, title, html. repeat split; try done.
  apply item_parts_Some. eauto.
Qed.

(** X10. The [title] of a yielded entry is the first line of the title of
    its item: it never holds a line feed, and it is the item title itself
    when that title holds none. *)
Theorem fetch_loop_entry_title (w : WordpressBlog) (last_title : string)
    (urls : list string) (e : gmap string value) :
  e ∈ (fetch_loop parse clean url_to_filename w last_title urls).1 →
  ∃ u items item title,
    u ∈ urls ∧ d_entries (parse u) = Some items ∧ item ∈ items
    ∧ item_title item = Some title
    ∧ e !! "title" = Some (VStr (PyStr.first_line title))
    ∧ no_line_feed (PyStr.first_line title) = true
    ∧ (no_line_feed title = true → e !! "title" = Some (VStr title)).
Proof.
  intros (u & items & item & title & html & Hu & Hi & Hin & Hp & ->)%elem_fetch_loop_built.
  apply item_parts_Some in Hp as [Ht _].
  exists u, items, item, title. repeat split; try done.
  - unfold built_entry.
    destruct (entry_dict_fields url_to_filename w u (item_text clean w title html)
                (PyStr.first_line (item_text clean w title html))
                (VStr (DataEntry.content_hash (item_text clean w title html))))
      as (_ & _ & F3 & _).
    simpl in *. rewrite F3. unfold item_text. by rewrite first_line_append.
  - apply first_line_no_line_feed.
  - intros Hn. unfold built_entry.
    destruct (entry_dict_fields url_to_filename w u (item_text clean w title html)
                (PyStr.first_line (item_text clean w title html))
                (VStr (DataEntry.content_hash (item_text clean w title html))))
      as (_ & _ & F3 & _).
    simpl in *. rewrite F3. unfold item_text. rewrite first_line_append.
    by rewrite (proj2 (first_line_no_line_feed title) Hn).
Qed.

Lemma built_entry_dom (w : WordpressBlog) (u : string) (p : string * string) :
  dom (built_entry clean url_to_filename w u p)
  = {[ "text"; "url"; "title"; "source"; "date_published"; "paged_url"; "id" ]}.
Proof.
  unfold built_entry, entry_dict, DataEntry.new, DataEntry.INIT_DICT.
  rewrite dom_insert_L, dom_union_L, !dom_insert_L, !dom_empty_L. set_solver.
Qed.

(** X11. Every yielded entry has exactly seven keys, the six recognised ones
    and [paged_url], and each of them holds a string: the scraper leaves no
    field at its [None] default. *)
Theorem fetch_loop_entry_keys (w : WordpressBlog) (last_title : string)
    (urls : list string) (e : gmap string value) :
  e ∈ (fetch_loop parse clean url_to_filename w last_title urls).1 →
  dom e = {[ "text"; "url"; "title"; "source"; "date_published"; "paged_url"; "id" ]}
  ∧ ∀ k v, e !! k = Some v → ∃ s, v = VStr s.
Proof.
  intros (u & items & item & title & html & _ & _ & _ & _ & ->)%elem_fetch_loop_built.
  split; [apply built_entry_dom |].
  intros k v Hk.
  assert (k ∈ dom (built_entry clean url_to_filename w u (title, html))) as Hd
    by (apply elem_of_dom; eauto).
  rewrite built_entry_dom in Hd.
  destruct (entry_dict_fields url_to_filename w u (item_text clean w title html)
              (PyStr.first_line (item_text clean w title html))
              (VStr (DataEntry.content_hash (item_text clean w title html))))
    as (F1 & F2 & F3 & F4 & F5 & F6 & F7).
  unfold built_entry in Hk. cbv zeta in F1, F2, F3, F4, F5, F6, F7, Hk.
  cbn [fst snd] in Hk.
  repeat (apply elem_of_union in Hd as [Hd | Hd]);
    apply elem_of_singleton in Hd; subst k;
    first [rewrite F1 in Hk | rewrite F2 in Hk | rewrite F3 in Hk | rewrite F4 in Hk
          | rewrite F5 in Hk | rewrite F6 in Hk | rewrite F7 in Hk];
    injection Hk as <-; eauto.
Qed.

(** X12. A yielded entry is determined by its text and its page: two
    yielded entries with the same text have the same id and the same title,
    and they are the same entry when they also come from the same page. *)
Theorem fetch_loop_entry_determined (w : WordpressBlog) (last_title : string)
    (urls : list string) (e1 e2 : gmap string value) :
  e1 ∈ (fetch_loop parse clean url_to_filename w last_title urls).1 →
  e2 ∈ (fetch_loop parse clean url_to_filename w last_title urls).1 →
  e1 !! "text" = e2 !! "text" →
  e1 !! "id" = e2 !! "id" ∧ e1 !! "title" = e2 !! "title"
  ∧ (e1 !! "paged_url" = e2 !! "paged_url" → e1 = e2).
Proof.
  intros (u1 & _ & _ & t1 & h1 & _ & _ & _ & _ & ->)%elem_fetch_loop_built.
  intros (u2 & _ & _ & t2 & h2 & _ & _ & _ & _ & ->)%elem_fetch_loop_built.
  unfold built_entry. simpl.
  destruct (entry_dict_fields url_to_filename w u1 (item_text clean w t1 h1)
              (PyStr.first_line (item_text clean w t1 h1))
              (VStr (DataEntry.content_hash (item_text clean w t1 h1))))
    as (F1 & _ & F3 & _ & _ & F6 & F7).
  destruct (entry_dict_fields url_to_filename w u2 (item_text clean w t2 h2)
              (PyStr.first_line (item_text clean w t2 h2))
              (VStr (DataEntry.content_hash (item_text clean w t2 h2))))
    as (G1 & _ & G3 & _ & _ & G6 & G7).
  simpl in *. rewrite F1, G1, F3, G3, F6, G6, F7, G7.
  intros [= Htext]. rewrite Htext. repeat split.
  intros [= ->]. done.
Qed.

End ScraperEntries.

Lemma sample_entry_in_loop :
  sample_entry ∈ (fetch_loop sample_parse sample_clean sample_url_to_filename sample_blog
                    EmptyString (items_list sample_blog)).1.
Proof. by_deciding. Defined.

Lemma fetch_loop_entry_title_witness :
  ∃ u items item title,
    u ∈ items_list sample_blog ∧ d_entries (sample_parse u) = Some items ∧ item ∈ items
    ∧ item_title item = Some title
    ∧ sample_entry !! "title" = Some (VStr (PyStr.first_line title))
    ∧ no_line_feed (PyStr.first_line title) = true
    ∧ (no_line_feed title = true → sample_entry !! "title" = Some (VStr title)).
Proof.
  exact (fetch_loop_entry_title sample_parse sample_clean sample_url_to_filename
           sample_blog EmptyString (items_list sample_blog) sample_entry
           sample_entry_in_loop).
Defined.

Lemma fetch_loop_entry_keys_witness :
  dom sample_entry
  = {[ "text"; "url"; "title"; "source"; "date_published"; "paged_url"; "id" ]}
  ∧ ∀ k v, sample_entry !! k = Some v → ∃ s, v = VStr s.
Proof.
  exact (fetch_loop_entry_keys sample_parse sample_clean sample_url_to_filename
           sample_blog EmptyString (items_list sample_blog) sample_entry
           sample_entry_in_loop).
Defined.

Lemma twin_entries_yielded :
  twin_entry "http://b.org/feed?paged=1"
    ∈ (fetch_loop twin_parse sample_clean sample_url_to_filename sample_blog EmptyString
         ["http://b.org/feed?paged=1"; "http://b.org/feed?paged=2"]).1
  ∧ twin_entry "http://b.org/feed?paged=2"
    ∈ (fetch_loop twin_parse sample_clean sample_url_to_filename sample_blog EmptyString
         ["http://b.org/feed?paged=1"; "http://b.org/feed?paged=2"]).1
  ∧ twin_entry "http://b.org/feed?paged=1" ≠ twin_entry "http://b.org/feed?paged=2".
Proof.
  split; [by_deciding |]. split; [by_deciding |].
  intros E. apply (f_equal (fun e : gmap string value => e !! "paged_url")) in E.
  vm_compute in E. discriminate.
Defined.

Lemma fetch_loop_entry_determined_witness :
  twin_entry "http://b.org/feed?paged=1" ≠ twin_entry "http://b.org/feed?paged=2"
  ∧ twin_entry "http://b.org/feed?paged=1" !! "id"
    = twin_entry "http://b.org/feed?paged=2" !! "id"
  ∧ twin_entry "http://b.org/feed?paged=1" !! "title"
    = twin_entry "http://b.org/feed?paged=2" !! "title".
Proof.
  destruct twin_entries_yielded as (Y1 & Y2 & Hne).
  destruct (fetch_loop_entry_determined twin_parse sample_clean sample_url_to_filename
              sample_blog EmptyString
              ["http://b.org/feed?paged=1"; "http://b.org/feed?paged=2"]
              (twin_entry "http://b.org/feed?paged=1")
              (twin_entry "http://b.org/feed?paged=2") Y1 Y2 eq_refl) as (Hid & Htitle & _).
  split; [exact Hne |]. split; [exact Hid | exact Htitle].
Defined.

(** ** Runs and the pages already done *)

Lemma fetch_loop_same_config (parse : string → FeedParserDict)
    (clean : list string → string → string) (url_to_filename : string → string)
    (w w' : WordpressBlog) (urls : list string) :
  url w = url w' → strip w = strip w' →
  ∀ last_title,
  fetch_loop parse clean url_to_filename w last_title urls
  = fetch_loop parse clean url_to_filename w' last_title urls.
Proof.
  destruct w as [u s m], w' as [u' s' m']. simpl. intros <- <-.
  assert (∀ p items,
            page_entries clean url_to_filename
              {| url := u; strip := s; max_pages := m |} p items
            = page_entries clean url_to_filename
                {| url := u; strip := s; max_pages := m' |} p items) as Hpage.
  { intros p items. induction items as [| item items IH]; simpl; [done |].
    change (make_entry clean url_to_filename {| url := u; strip := s; max_pages := m |} p item)
      with (make_entry clean url_to_filename {| url := u; strip := s; max_pages := m' |} p item).
    by rewrite IH. }
  induction urls as [| p urls IH]; intros last_title; simpl; [done |].
  destruct (end_of_feed (parse p) last_title); [done |].
  rewrite IH. unfold page_run. destruct (d_entries (parse p)); [| done].
  by rewrite Hpage.
Qed.

Section ScraperResume.

Variable parse : string -> FeedParserDict.
Variable clean : list string -> string -> string.
Variable url_to_filename : string -> string.

Lemma elem_fetch_loop_paged (w : WordpressBlog) (last_title : string)
    (urls : list string) (e : gmap string value) (u : string) :
  e ∈ (fetch_loop parse clean url_to_filename w last_title urls).1 →
  e !! "paged_url" = Some (VStr u) →
  u ∈ urls ∧ ∃ items item, d_entries (parse u) = Some items ∧ item ∈ items.
Proof.
  intros (p & items & item & title & html & Hp & Hi & Hin & _ & ->)%elem_fetch_loop_built.
  unfold built_entry.
  destruct (entry_dict_fields url_to_filename w p (item_text clean w title html)
              (PyStr.first_line (item_text clean w title html))
              (VStr (DataEntry.content_hash (item_text clean w title html))))
    as (_ & _ & _ & _ & _ & F6 & _).
  simpl in *. rewrite F6. intros [= <-]. eauto.
Qed.

(** X13. Raising [max_pages] only appends: for the same [url], [strip] and
    earlier output, the entries yielded with a smaller [max_pages] are a
    prefix of those yielded with a larger one. *)
Theorem fetch_entries_max_pages (w w' : WordpressBlog) (prior : list (gmap string value)) :
  url w = url w' → strip w = strip w' → (max_pages w ≤ max_pages w')%Z →
  (fetch_entries parse clean url_to_filename w prior).1
    `prefix_of` (fetch_entries parse clean url_to_filename w' prior).1.
Proof.
  intros Hu Hs Hm. unfold fetch_entries, unprocessed_items.
  destruct (items_list_app w w' Hu Hm) as [more ->].
  rewrite filter_app, (fetch_loop_same_config parse clean url_to_filename w w' _ Hu Hs).
  apply fetch_loop_prefix.
Qed.

(** X14. A page that yielded an entry is not fetched again: once the
    entries of a run are part of the earlier output, the [paged_url] of each
    of them is no longer among the unprocessed items. *)
Theorem fetch_entries_page_done (w : WordpressBlog) (prior : list (gmap string value))
    (e : gmap string value) (u : string) :
  e ∈ (fetch_entries parse clean url_to_filename w prior).1 →
  e !! "paged_url" = Some (VStr u) →
  u ∈ unprocessed_items w prior
  ∧ u ∉ unprocessed_items w
          (prior ++ (fetch_entries parse clean url_to_filename w prior).1).
Proof.
  intros He Hu. split.
  - by destruct (elem_fetch_loop_paged w _ _ e u He Hu) as [Hin _].
  - rewrite unprocessed_items_elem. intros [_ Hnot]. apply Hnot.
    unfold done_items. rewrite omap_app, elem_of_app. right.
    apply list_elem_of_omap. exists e. split; [done |]. exact Hu.
Qed.

(** X15. A page without items leaves no trace: no yielded entry carries its
    [paged_url], so it is not marked done and stays among the unprocessed
    items once the entries of the run are part of the earlier output. *)
Theorem fetch_entries_empty_page_again (w : WordpressBlog)
    (prior : list (gmap string value)) (u : string) :
  u ∈ unprocessed_items w prior →
  d_entries (parse u) = Some [] →
  (∀ e, e ∈ (fetch_entries parse clean url_to_filename w prior).1 →
        e !! "paged_url" ≠ Some (VStr u))
  ∧ u ∈ unprocessed_items w
          (prior ++ (fetch_entries parse clean url_to_filename w prior).1).
Proof.
  intros Hu Hnil.
  assert (∀ e, e ∈ (fetch_entries parse clean url_to_filename w prior).1 →
               e !! "paged_url" ≠ Some (VStr u)) as Hno.
  { intros e He Hpaged.
    destruct (elem_fetch_loop_paged w _ _ e u He Hpaged) as [_ (items & item & Hi & Hin)].
    rewrite Hnil in Hi. simplify_eq. by apply elem_of_nil in Hin. }
  split; [exact Hno |].
  apply unprocessed_items_elem in Hu as [Hitems Hdone].
  apply unprocessed_items_elem. split; [done |].
  unfold done_items. rewrite omap_app, elem_of_app. intros [H | H]; [by apply Hdone |].
  apply list_elem_of_omap in H as (e & He & Hk). by apply (Hno e He).
Qed.

End ScraperResume.

Lemma fetch_entries_max_pages_witness :
  (fetch_entries sample_parse sample_clean sample_url_to_filename
     (WordpressBlog_init "http://b.org" None (Some 1%Z)) []).1
    `prefix_of`
  (fetch_entries sample_parse sample_clean sample_url_to_filename sample_blog []).1.
Proof.
  apply (fetch_entries_max_pages sample_parse sample_clean sample_url_to_filename
           (WordpressBlog_init "http://b.org" None (Some 1%Z)) sample_blog []);
    [reflexivity | reflexivity | vm_compute; discriminate].
Defined.

Lemma sample_entry_paged_url :
  sample_entry !! "paged_url" = Some (VStr "http://b.org/feed?paged=1").
Proof. reflexivity. Defined.

Lemma fetch_entries_page_done_witness :
  "http://b.org/feed?paged=1" ∈ unprocessed_items sample_blog []
  ∧ "http://b.org/feed?paged=1" ∉ unprocessed_items sample_blog
      ([] ++ (fetch_entries sample_parse sample_clean sample_url_to_filename
                sample_blog []).1).
Proof.
  exact (fetch_entries_page_done sample_parse sample_clean sample_url_to_filename
           sample_blog [] sample_entry "http://b.org/feed?paged=1"
           sample_entry_yielded sample_entry_paged_url).
Defined.

Lemma second_page_unprocessed :
  "http://b.org/feed?paged=2" ∈ unprocessed_items sample_blog [].
Proof. by_deciding. Defined.

Lemma fetch_entries_empty_page_again_witness :
  "http://b.org/feed?paged=2" ∈ unprocessed_items sample_blog
      ([] ++ (fetch_entries sample_parse sample_clean sample_url_to_filename
                sample_blog []).1).
Proof.
  apply (fetch_entries_empty_page_again sample_parse sample_clean sample_url_to_filename
           sample_blog [] "http://b.org/feed?paged=2" second_page_unprocessed eq_refl).
Defined.
